(** * The Extended Volumes API extension (nova, v3 plugin)

    A shallow embedding of
    [nova/api/openstack/compute/plugins/v3/extended_volumes.py]: the
    [ExtendedVolumesController] with its two response hooks ([show],
    [detail]) and its two server actions ([attach], [detach]).

    Python dictionaries are finite maps, exceptions are an explicit
    outcome, and the compute and volume services are an interface over an
    abstract backend state; every call into them is recorded in a trace. *)

From stdpp Require Import gmap strings list fin_maps.

#[local] Set Warnings "-register-all".

(** ** Python values *)

(** The values a deserialised request body or a server view is made of. *)
Inductive value :=
| VNone
| VBool (b : bool)
| VInt (z : Z)
| VStr (s : string)
| VList (l : list value)
| VDict (d : gmap string value).

(** The exceptions the controller raises, catches or lets through:
    those of [nova.exception], those of [webob.exc], and the ones Python
    raises on a bad subscript. *)
Inductive exn :=
| InstanceNotFound (msg : string)
| VolumeNotFound (msg : string)
| InstanceInvalidState (attr state : string)
| InvalidVolume (msg : string)
| InvalidDevicePath (msg : string)
| VolumeUnattached (msg : string)
| HTTPBadRequest (explanation : string)
| HTTPNotFound (explanation : string)
| HTTPConflict (explanation : string)
| HTTPForbidden (explanation : string)
| KeyError (key : string)
| TypeError (msg : string)
| OtherError (name msg : string).

Inductive outcome (A : Type) :=
| Return (a : A)
| Raise (e : exn).
Arguments Return {A} a.
Arguments Raise {A} e.

(** [v[k]] for a string key [k]: only a dict can be subscripted by a
    string, and a missing key is a [KeyError]. *)
Definition py_getitem (v : value) (k : string) : outcome value :=
  match v with
  | VDict d => match d !! k with
               | Some x => Return x
               | None => Raise (KeyError k)
               end
  | _ => Raise (TypeError "object cannot be subscripted by a string")
  end.

(** [d.get(k)] on a dict: [None] when the key is absent. *)
Definition py_get (d : gmap string value) (k : string) : value :=
  default VNone (d !! k).

(** [list(v)]: a list is copied, a string yields its characters, a dict its
    keys; nothing else is iterable. *)
Definition py_list (v : value) : outcome (list value) :=
  match v with
  | VList l => Return l
  | VStr s => Return ((λ c, VStr (String c EmptyString)) <$> String.list_ascii_of_string s)
  | VDict d => Return ((λ kv, VStr kv.1) <$> map_to_list d)
  | _ => Raise (TypeError "object is not iterable")
  end.

(** ** The request context and the policy check *)

(** The request context, with the decisions the policy engine takes for
    its caller: [policy api extension] tells whether the caller holds the
    capability [extension] of the API [api]. *)
Record RequestContext := {
  user_id : string;
  policy : string → string → bool
}.

(** Modelled from the spec: [extensions.soft_extension_authorizer] is not
    part of the source at hand.  A soft authorization is a capability check
    that silently disables a feature rather than failing the request: the
    authorizer it builds answers with a boolean and never raises. *)
Definition soft_extension_authorizer
    (api_name extension_name : string) (context : RequestContext) : bool :=
  policy context api_name extension_name.

Definition ALIAS : string := "os-extended-volumes".

Definition authorize : RequestContext → bool :=
  soft_extension_authorizer "compute" ("v3:" +:+ ALIAS).
Definition authorize_attach : RequestContext → bool :=
  soft_extension_authorizer "compute" ("v3:" +:+ ALIAS +:+ ":attach").
Definition authorize_detach : RequestContext → bool :=
  soft_extension_authorizer "compute" ("v3:" +:+ ALIAS +:+ ":detach").

(** ** Block device mappings, responses *)

(** A block device mapping row; [volume_id] is a nullable string column. *)
Record bdm := {
  volume_id : option string;
  device_name : option string
}.

(** Truth value of [bdm['volume_id']]: [None] and the empty string are
    false.  The result is the id when it is true. *)
Definition truthy_volume_id (b : bdm) : option string :=
  match volume_id b with
  | Some s => if decide (s = "") then None else Some s
  | None => None
  end.

(** [bdm['volume_id'] != volume_id], the right-hand side coming from the
    request body. *)
Definition volume_id_differs (b : bdm) (requested : value) : bool :=
  match volume_id b, requested with
  | Some s, VStr t => bool_decide (s ≠ t)
  | None, VNone => false
  | _, _ => true
  end.

(** The two subordinate XML templates of the extension. *)
Inductive xml_template :=
| ExtendedVolumesServerTemplate
| ExtendedVolumesServersTemplate.

(** The response object the hooks receive: the view being returned and
    the serializer templates attached to it. *)
Record response_object := {
  obj : gmap string value;
  serializers : list xml_template
}.

(** [resp_obj.attach(xml=template)] *)
Definition resp_attach (t : xml_template) (r : response_object) : response_object :=
  {| obj := obj r; serializers := serializers r ++ [t] |}.

(** What an action answers when it returns: a status code and a body. *)
Record response := {
  status : Z;
  resp_body : option value
}.

Inductive log_entry :=
| LogAudit (msg : string)
| LogDebug (msg : string).

(** ** The controller *)

Section Controller.

(** Instances, volumes and the state of the backend services are opaque
    to the extension. *)
Context {Inst Vol S : Type}.

(** A request: its context and the cache of database instances the core
    API filled in. *)
Record request := {
  environ_context : RequestContext;
  get_db_instance : value → Inst
}.

(** What the controller calls and does not define: the compute and
    volume APIs, and two library functions. *)
Record Services := {
  compute_api_get : RequestContext → string → S → outcome Inst * S;
  compute_api_get_instance_bdms :
    RequestContext → Inst → S → outcome (list bdm) * S;
  compute_api_attach_volume :
    RequestContext → Inst → value → value → S → outcome unit * S;
  compute_api_detach_volume :
    RequestContext → Inst → Vol → S → outcome unit * S;
  volume_api_get : RequestContext → value → S → outcome Vol * S;
  (** [uuidutils.is_uuid_like] *)
  is_uuid_like : value → bool;
  (** [str] of a value that is not a string *)
  py_repr : value → string
}.

Inductive call :=
| CallComputeGet (context : RequestContext) (server_id : string)
| CallVolumeGet (context : RequestContext) (volume_id : value)
| CallGetInstanceBdms (context : RequestContext) (instance : Inst)
| CallAttachVolume (context : RequestContext) (instance : Inst)
    (volume_id device : value)
| CallDetachVolume (context : RequestContext) (instance : Inst) (volume : Vol).

Definition is_detach_call (c : call) : bool :=
  match c with CallDetachVolume _ _ _ => true | _ => false end.

(** Everything a handler can change: the backend, the trace of the calls
    made into it, and the log. *)
Record world := {
  backend : S;
  calls : list call;
  log : list log_entry
}.

(** A computation that may raise and may change the world. *)
Definition M (A : Type) : Type := world → outcome A * world.

#[local] Instance M_ret : MRet M := λ A a w, (Return a, w).
#[local] Instance M_bind : MBind M := λ A B k m w,
  match m w with
  | (Return a, w') => k a w'
  | (Raise e, w') => (Raise e, w')
  end.

Definition raise {A} (e : exn) : M A := λ w, (Raise e, w).

Definition lift {A} (o : outcome A) : M A := λ w, (o, w).

(** [try: m except ...: h]: [h e] is the clause that catches [e], if
    there is one. *)
Definition try_except {A} (m : M A) (h : exn → option (M A)) : M A := λ w,
  match m w with
  | (Return a, w') => (Return a, w')
  | (Raise e, w') => match h e with
                     | Some k => k w'
                     | None => (Raise e, w')
                     end
  end.

(** A call into a backend service, recorded in the trace. *)
Definition invoke {A} (c : call) (f : S → outcome A * S) : M A := λ w,
  let '(r, s') := f (backend w) in
  (r, {| backend := s'; calls := calls w ++ [c]; log := log w |}).

Definition write_log (e : log_entry) : M unit := λ w,
  (Return (), {| backend := backend w; calls := calls w; log := log w ++ [e] |}).

(** The decorator [wsgi.response(code)]: a handler that returns answers
    with [code] and no body. *)
Definition wsgi_response (code : Z) (m : M unit) : M response :=
  _ ← m; mret {| status := code; resp_body := None |}.

Variable svc : Services.

(** [msg % v] for a [%s] place holder. *)
Definition py_format (v : value) : string :=
  match v with
  | VStr s => s
  | _ => py_repr svc v
  end.

(** Modelled from the spec: [wsgi.Controller.is_valid_body] is not part
    of the source at hand.  The body must contain a well-formed object
    under the name of the action. *)
Definition is_valid_body (body : value) (entity_name : string) : bool :=
  match body with
  | VDict d => match d !! entity_name with
               | Some (VDict _) => true
               | _ => false
               end
  | _ => false
  end.

(** Modelled from the spec:
    [common.raise_http_conflict_for_instance_invalid_state] is not part
    of the source at hand.  It always raises a conflict, with a message
    that names the operation and the state the instance is in. *)
Definition raise_http_conflict_for_instance_invalid_state {A}
    (state_error : exn) (action : string) : M A :=
  match state_error with
  | InstanceInvalidState attr state =>
      raise (HTTPConflict ("Cannot '" +:+ action +:+ "' while instance is in "
                           +:+ attr +:+ " " +:+ state))
  | _ =>
      raise (HTTPConflict ("Instance is in an invalid state for '"
                           +:+ action +:+ "'"))
  end.

Definition volumes_attached_key : string := ALIAS +:+ ":volumes_attached".

(** The in-place update [server[key] = ...] is the last statement: the
    updated dict is the result, and an exception leaves [server] as it
    was. *)
Definition _extend_server (context : RequestContext)
    (server : gmap string value) (instance : Inst) : M (gmap string value) :=
  bdms ← invoke (CallGetInstanceBdms context instance)
                (compute_api_get_instance_bdms svc context instance);
  let volume_ids := omap truthy_volume_id bdms in
  let key := volumes_attached_key in
  mret (<[key := VList ((λ volume_id, VDict {["id" := VStr volume_id]})
                          <$> volume_ids)]> server).

(** The hooks change the response object they are given; the result is
    that object after the hook.  When a hook raises, the framework drops
    the response object. *)
Definition show (req : request) (resp_obj : response_object) (id : string)
    : M response_object :=
  let context := environ_context req in
  if authorize context then
    let resp_obj := resp_attach ExtendedVolumesServerTemplate resp_obj in
    server ← lift (py_getitem (VDict (obj resp_obj)) "server");
    server_id ← lift (py_getitem server "id");
    let db_instance := get_db_instance req server_id in
    match server with
    | VDict d =>
        d' ← _extend_server context d db_instance;
        mret {| obj := <["server" := VDict d']> (obj resp_obj);
                serializers := serializers resp_obj |}
    | _ => raise (TypeError "object cannot be subscripted by a string")
    end
  else mret resp_obj.

(** The [for server in servers] loop of [detail]; the servers are
    distinct dicts, each built by the core API for one instance. *)
Fixpoint detail_loop (req : request) (context : RequestContext)
    (servers : list value) : M (list value) :=
  match servers with
  | [] => mret []
  | server :: rest =>
      server_id ← lift (py_getitem server "id");
      let db_instance := get_db_instance req server_id in
      match server with
      | VDict d =>
          d' ← _extend_server context d db_instance;
          rest' ← detail_loop req context rest;
          mret (VDict d' :: rest')
      | _ => raise (TypeError "object cannot be subscripted by a string")
      end
  end.

Definition detail (req : request) (resp_obj : response_object)
    : M response_object :=
  let context := environ_context req in
  if authorize context then
    let resp_obj := resp_attach ExtendedVolumesServersTemplate resp_obj in
    listed ← lift (py_getitem (VDict (obj resp_obj)) "servers");
    servers ← lift (py_list listed);
    servers' ← detail_loop req context servers;
    mret match listed with
         | VList _ => {| obj := <["servers" := VList servers']> (obj resp_obj);
                         serializers := serializers resp_obj |}
         | _ => resp_obj
         end
  else mret resp_obj.

Definition _validate_volume_id (volume_id : value) : M unit :=
  if negb (is_uuid_like svc volume_id) then
    let msg := "Bad volumeId format: volumeId is not in proper format ("
               +:+ py_format volume_id +:+ ")" in
    raise (HTTPBadRequest msg)
  else mret ().

(** The [except] clauses of [attach]. *)
Definition attach_except (e : exn) : option (M unit) :=
  match e with
  | InstanceNotFound msg | VolumeNotFound msg => Some (raise (HTTPNotFound msg))
  | InstanceInvalidState _ _ =>
      Some (raise_http_conflict_for_instance_invalid_state e "attach_volume")
  | InvalidVolume msg => Some (raise (HTTPBadRequest msg))
  | InvalidDevicePath msg => Some (raise (HTTPBadRequest msg))
  | _ => None
  end.

Definition attach (req : request) (id : string) (body : value) : M response :=
  wsgi_response 202 (
    let server_id := id in
    let context := environ_context req in
    _ ← mret (authorize_attach context);
    if negb (is_valid_body body "attach") then
      raise (HTTPBadRequest "The request body invalid")
    else
      attach_obj ← lift (py_getitem body "attach");
      volume_id ← lift (py_getitem attach_obj "volume_id");
      let device := match attach_obj with
                    | VDict d => py_get d "device"
                    | _ => VNone
                    end in
      _validate_volume_id volume_id;;
      write_log (LogAudit ("Attach volume " +:+ py_format volume_id
                           +:+ " to instance " +:+ server_id
                           +:+ " at " +:+ py_format device));;
      try_except
        (instance ← invoke (CallComputeGet context server_id)
                           (compute_api_get svc context server_id);
         invoke (CallAttachVolume context instance volume_id device)
                (compute_api_attach_volume svc context instance volume_id device))
        attach_except).

Definition not_attached_msg (volume_id : value) (server_id : string) : string :=
  "Volume " +:+ py_format volume_id +:+ " is not attached to the instance "
  +:+ server_id.

(** The [except] clauses inside the loop of [detach], but for the one of
    [VolumeUnattached], which goes on with the loop. *)
Definition detach_except (e : exn) : option (M unit) :=
  match e with
  | InvalidVolume msg => Some (raise (HTTPBadRequest msg))
  | InstanceInvalidState _ _ =>
      Some (raise_http_conflict_for_instance_invalid_state e "detach_volume")
  | _ => None
  end.

(** The [for bdm in bdms: ... else: ...] loop of [detach]. *)
Fixpoint detach_loop (context : RequestContext) (server_id : string)
    (instance : Inst) (volume : Vol) (volume_id : value)
    (bdms : list bdm) : M unit :=
  match bdms with
  | [] => raise (HTTPNotFound (not_attached_msg volume_id server_id))
  | b :: rest =>
      if volume_id_differs b volume_id then
        detach_loop context server_id instance volume volume_id rest
      else
        try_except
          (invoke (CallDetachVolume context instance volume)
                  (compute_api_detach_volume svc context instance volume))
          (λ e, match e with
                | VolumeUnattached _ =>
                    Some (detach_loop context server_id instance volume
                                      volume_id rest)
                | _ => detach_except e
                end)
  end.

Definition detach (req : request) (id : string) (body : value) : M response :=
  wsgi_response 202 (
    let server_id := id in
    let context := environ_context req in
    _ ← mret (authorize_detach context);
    detach_obj ← lift (py_getitem body "detach");
    volume_id ← lift (py_getitem detach_obj "volume_id");
    write_log (LogAudit ("Detach volume " +:+ py_format volume_id
                         +:+ " from instance " +:+ id));;
    instance ← try_except
                 (invoke (CallComputeGet context server_id)
                         (compute_api_get svc context server_id))
                 (λ e, match e with
                       | InstanceNotFound msg => Some (raise (HTTPNotFound msg))
                       | _ => None
                       end);
    volume ← try_except
               (invoke (CallVolumeGet context volume_id)
                       (volume_api_get svc context volume_id))
               (λ e, match e with
                     | VolumeNotFound msg => Some (raise (HTTPNotFound msg))
                     | _ => None
                     end);
    bdms ← invoke (CallGetInstanceBdms context instance)
                  (compute_api_get_instance_bdms svc context instance);
    match bdms with
    | [] =>
        let msg := not_attached_msg volume_id server_id in
        write_log (LogDebug msg);;
        raise (HTTPNotFound msg)
    | _ => detach_loop context server_id instance volume volume_id bdms
    end).

End Controller.

(** ** The vocabulary of the specification *)

(** The entries [_extend_server] computes from the mappings it is given. *)
Definition attached_entries (bdms : list bdm) : list value :=
  (λ v, VDict {["id" := VStr v]}) <$> omap truthy_volume_id bdms.

(** The instance has the mappings [bdms], whatever the backend state. *)
Definition has_bdms {Inst Vol S : Type} (svc : @Services Inst Vol S)
    (context : RequestContext) (instance : Inst) (bdms : list bdm) : Prop :=
  ∀ s, ∃ s', compute_api_get_instance_bdms svc context instance s = (Return bdms, s').

Definition nonempty_volume_id (b : bdm) : Prop :=
  ∃ v, volume_id b = Some v ∧ v ≠ "".

Definition empty_volume_id (b : bdm) : Prop :=
  volume_id b = None ∨ volume_id b = Some "".

(** The server view lists the mappings [bdms] under the key of the
    extension: as many entries, in the order of the mappings, each one the
    object [{id: volume_id}]. *)
Definition lists_volumes (bdms : list bdm) (server : gmap string value) : Prop :=
  ∃ entries,
    server !! "os-extended-volumes:volumes_attached" = Some (VList entries)
    ∧ length entries = length bdms
    ∧ Forall2 (λ b e, ∃ v, volume_id b = Some v ∧ e = VDict {["id" := VStr v]})
        bdms entries.

(** Nothing but the key of the extension differs between the two views. *)
Definition same_elsewhere (server server' : gmap string value) : Prop :=
  ∀ k, k ≠ "os-extended-volumes:volumes_attached" → server' !! k = server !! k.

(** What [detail] does to one server view whose instance has the mappings
    [bdms_of server_id]. *)
Definition extended_by (bdms_of : value → list bdm)
    (server server' : value) : Prop :=
  ∃ d server_id,
    server = VDict d ∧ d !! "id" = Some server_id
    ∧ server' = VDict (<[volumes_attached_key :=
                           VList (attached_entries (bdms_of server_id))]> d).

(** A server view in a response, with the mappings its instance has. *)
Definition known_server {Inst Vol S : Type} (svc : @Services Inst Vol S)
    (req : request) (bdms_of : value → list bdm) (server : value) : Prop :=
  ∃ d server_id,
    server = VDict d ∧ d !! "id" = Some server_id
    ∧ has_bdms svc (environ_context req) (get_db_instance req server_id)
        (bdms_of server_id).

(** The key of the extension is set to a list, the empty one when no
    mapping has a volume id. *)
Definition key_is_set (bdms_of : value → list bdm) (server server' : value)
    : Prop :=
  ∃ d server_id d' entries,
    server = VDict d ∧ d !! "id" = Some server_id ∧ server' = VDict d'
    ∧ d' !! "os-extended-volumes:volumes_attached" = Some (VList entries)
    ∧ (Forall empty_volume_id (bdms_of server_id) → entries = []).

(** The mapping is one of the requested volume. *)
Definition same_volume (b : bdm) (requested : value) : Prop :=
  match requested with
  | VStr v => volume_id b = Some v
  | VNone => volume_id b = None
  | _ => False
  end.

(** The number of calls of [detach_volume] made so far. *)
Definition detach_volume_calls {Inst Vol S : Type} (w : @world Inst Vol S) : nat :=
  length (filter (λ c, is_detach_call c = true) (calls w)).

(** The look-ups of [detach] succeed from the backend state [s]: the
    instance is [instance], the volume is [volume], the mappings of the
    instance are [bdms], and the backend is left in the state [s']. *)
Definition lookups_return {Inst Vol S : Type} (svc : @Services Inst Vol S)
    (context : RequestContext) (server_id : string) (requested : value)
    (s : S) (instance : Inst) (volume : Vol) (bdms : list bdm) (s' : S) : Prop :=
  ∃ s1 s2,
    compute_api_get svc context server_id s = (Return instance, s1)
    ∧ volume_api_get svc context requested s1 = (Return volume, s2)
    ∧ compute_api_get_instance_bdms svc context instance s2 = (Return bdms, s').

(** The world [detach] is in once its look-ups have succeeded. *)
Definition after_lookups {Inst Vol S : Type} (svc : @Services Inst Vol S)
    (context : RequestContext) (server_id : string) (requested : value)
    (instance : Inst) (w : @world Inst Vol S) (s' : S) : @world Inst Vol S :=
  {| backend := s';
     calls := calls w ++ [CallComputeGet context server_id;
                          CallVolumeGet context requested;
                          CallGetInstanceBdms context instance];
     log := log w ++ [LogAudit ("Detach volume " +:+ py_format svc requested
                                +:+ " from instance " +:+ server_id)] |}.

(** The error [attach] answers with for each failure of the backend, as
    the specification lists them. *)
Inductive attach_failure : exn → exn → Prop :=
| attach_instance_not_found (msg : string) :
    attach_failure (InstanceNotFound msg) (HTTPNotFound msg)
| attach_volume_not_found (msg : string) :
    attach_failure (VolumeNotFound msg) (HTTPNotFound msg)
| attach_instance_invalid_state (attr state : string) :
    attach_failure (InstanceInvalidState attr state)
      (HTTPConflict ("Cannot 'attach_volume' while instance is in "
                     +:+ attr +:+ " " +:+ state))
| attach_invalid_volume (msg : string) :
    attach_failure (InvalidVolume msg) (HTTPBadRequest msg)
| attach_invalid_device_path (msg : string) :
    attach_failure (InvalidDevicePath msg) (HTTPBadRequest msg).

(** ** Fake services

    Stand-ins for the compute and volume APIs, in the manner of the fakes
    of the unit tests: instances and volumes are their ids. *)

Module Fake.

Definition is_hex_digit (c : Ascii.ascii) : bool :=
  let n := Ascii.nat_of_ascii c in
  ((48 <=? n) && (n <=? 57)) || ((97 <=? n) && (n <=? 102)).

Fixpoint uuid_shape (pos : nat) (cs : list Ascii.ascii) : bool :=
  match cs with
  | [] => pos =? 36
  | c :: cs' =>
      (if (pos =? 8) || (pos =? 13) || (pos =? 18) || (pos =? 23)
       then (Ascii.nat_of_ascii c =? 45) else is_hex_digit c)
      && uuid_shape (Datatypes.S pos) cs'
  end%nat.

(** A string in the canonical form of a UUID:
    [aaaaaaaa-aaaa-aaaa-aaaa-aaaaaaaaaaaa]. *)
Definition uuid_like (v : value) : bool :=
  match v with
  | VStr s => uuid_shape 0 (String.list_ascii_of_string s)
  | _ => false
  end.

Definition repr (v : value) : string :=
  match v with
  | VNone => "None"
  | VBool true => "True"
  | VBool false => "False"
  | _ => "<object>"
  end.

(** The state of the fake backend: the servers and volumes that exist, the
    block device mappings (of the one instance under test), and the
    answers the next calls of [attach_volume] and [detach_volume] give. *)
Record state := {
  servers : list string;
  volumes : list string;
  bdm_rows : list bdm;
  attach_answer : outcome unit;
  detach_answers : list (outcome unit)
}.

Definition compute_get (_ : RequestContext) (server_id : string) (s : state)
    : outcome string * state :=
  if bool_decide (server_id ∈ servers s) then (Return server_id, s)
  else (Raise (InstanceNotFound ("Instance " +:+ server_id +:+ " could not be found.")), s).

Definition volume_get (_ : RequestContext) (volume_id : value) (s : state)
    : outcome string * state :=
  match volume_id with
  | VStr v =>
      if bool_decide (v ∈ volumes s) then (Return v, s)
      else (Raise (VolumeNotFound ("Volume " +:+ v +:+ " could not be found.")), s)
  | _ => (Raise (VolumeNotFound "Volume could not be found."), s)
  end.

Definition get_instance_bdms (_ : RequestContext) (_ : string) (s : state)
    : outcome (list bdm) * state :=
  (Return (bdm_rows s), s).

Definition attach_volume (_ : RequestContext) (_ : string) (_ _ : value)
    (s : state) : outcome unit * state :=
  (attach_answer s, s).

(** A detach that succeeds removes the mappings of the volume. *)
Definition detach_volume (_ : RequestContext) (_ : string) (volume : string)
    (s : state) : outcome unit * state :=
  let answer := default (Return ()) (head (detach_answers s)) in
  (answer,
   {| servers := servers s;
      volumes := volumes s;
      bdm_rows := match answer with
                  | Return _ => filter (λ b, volume_id b ≠ Some volume) (bdm_rows s)
                  | Raise _ => bdm_rows s
                  end;
      attach_answer := attach_answer s;
      detach_answers := tail (detach_answers s) |}).

Definition services : @Services string string state :=
  {| compute_api_get := compute_get;
     compute_api_get_instance_bdms := get_instance_bdms;
     compute_api_attach_volume := attach_volume;
     compute_api_detach_volume := detach_volume;
     volume_api_get := volume_get;
     is_uuid_like := uuid_like;
     py_repr := repr |}.

(** A backend without state, where the mappings of each instance are
    given by a table. *)
Definition static_services (table : string → list bdm)
    : @Services string string unit :=
  {| compute_api_get := λ _ server_id s, (Return server_id, s);
     compute_api_get_instance_bdms := λ _ instance s, (Return (table instance), s);
     compute_api_attach_volume := λ _ _ _ _ s, (Return (), s);
     compute_api_detach_volume := λ _ _ _ s, (Return (), s);
     volume_api_get := λ _ volume_id s,
       (match volume_id with
        | VStr v => Return v
        | _ => Raise (VolumeNotFound "Volume could not be found.")
        end, s);
     is_uuid_like := uuid_like;
     py_repr := repr |}.

Definition admin : RequestContext :=
  {| user_id := "admin"; policy := λ _ _, true |}.

(** A caller that holds no capability of the extension. *)
Definition outsider : RequestContext :=
  {| user_id := "outsider"; policy := λ _ _, false |}.

Definition req_of (context : RequestContext) : @request string :=
  {| environ_context := context;
     get_db_instance := λ v, match v with VStr s => s | _ => "" end |}.

Definition UUID1 : string := "a26887c6-c47b-4654-abb5-dfadf7d3f803".
Definition UUID2 : string := "a26887c6-c47b-4654-abb5-dfadf7d3f804".
Definition SERVER : string := "fake-server-1".

Definition attach_body (volume_id : value) : value :=
  VDict {["attach" := VDict {["volume_id" := volume_id]}]}.
Definition detach_body (volume_id : value) : value :=
  VDict {["detach" := VDict {["volume_id" := volume_id]}]}.

Definition row (v : string) : bdm :=
  {| volume_id := Some v; device_name := Some "/dev/vdb" |}.

Definition state0 : state :=
  {| servers := [SERVER]; volumes := [UUID1; UUID2]; bdm_rows := [];
     attach_answer := Return (); detach_answers := [] |}.

Definition world_of {S' : Type} (s : S') : @world string string S' :=
  {| backend := s; calls := []; log := [] |}.

(** Two volumes on the server under test, none on the others. *)
Definition table (instance : string) : list bdm :=
  if bool_decide (instance = SERVER) then [row UUID1; row UUID2] else [].

(** Mappings that carry no volume id: an ephemeral disk and a swap disk. *)
Definition table_no_volume (instance : string) : list bdm :=
  if bool_decide (instance = SERVER)
  then [{| volume_id := None; device_name := Some "/dev/vdb" |};
        {| volume_id := Some ""; device_name := Some "/dev/vdc" |}]
  else [].

Definition view (server_id : string) : value :=
  VDict {["id" := VStr server_id; "name" := VStr "server"]}.

Definition shown : response_object :=
  {| obj := {["server" := view SERVER]}; serializers := [] |}.

Definition listed : response_object :=
  {| obj := {["servers" := VList [view SERVER; view "fake-server-2"]]};
     serializers := [] |}.

End Fake.

(** ** More vocabulary: what the remaining paths of the controller do *)

#[local] Instance same_volume_dec (b : bdm) (requested : value)
    : Decision (same_volume b requested) :=
  match requested return Decision (same_volume b requested) with
  | VStr v => decide (volume_id b = Some v)
  | VNone => decide (volume_id b = None)
  | _ => right (λ H : False, H)
  end.

(** The mappings the scan of [detach] stops at. *)
Definition matching (requested : value) (bdms : list bdm) : list bdm :=
  filter (λ b, same_volume b requested) bdms.

(** An exception no [except] clause of [attach] names. *)
Definition uncaught_by_attach (e : exn) : Prop :=
  match e with
  | InstanceNotFound _ | VolumeNotFound _ | InstanceInvalidState _ _
  | InvalidVolume _ | InvalidDevicePath _ => False
  | _ => True
  end.

(** What a failure of [detach_volume] other than [VolumeUnattached] turns
    into inside the scan of [detach]: the two clauses of the loop, and
    everything else as it is. *)
Inductive detach_failure : exn → exn → Prop :=
| detach_invalid_volume (msg : string) :
    detach_failure (InvalidVolume msg) (HTTPBadRequest msg)
| detach_instance_invalid_state (attr state : string) :
    detach_failure (InstanceInvalidState attr state)
      (HTTPConflict ("Cannot 'detach_volume' while instance is in "
                     +:+ attr +:+ " " +:+ state))
| detach_uncaught (e : exn) :
    match e with
    | VolumeUnattached _ | InvalidVolume _ | InstanceInvalidState _ _ => False
    | _ => True
    end →
    detach_failure e e.

(** The same services with another [is_uuid_like]. *)
Definition with_is_uuid_like {Inst Vol S : Type} (f : value → bool)
    (svc : @Services Inst Vol S) : @Services Inst Vol S :=
  {| compute_api_get := compute_api_get svc;
     compute_api_get_instance_bdms := compute_api_get_instance_bdms svc;
     compute_api_attach_volume := compute_api_attach_volume svc;
     compute_api_detach_volume := compute_api_detach_volume svc;
     volume_api_get := volume_api_get svc;
     is_uuid_like := f;
     py_repr := py_repr svc |}.

(** The entries that list the volume ids of [bdms]: a mapping without a
    volume id has no entry, the others have theirs, in the same order. *)
Inductive lists_nonempty_ids : list bdm → list value → Prop :=
| lists_nil : lists_nonempty_ids [] []
| lists_skip (b : bdm) (bdms : list bdm) (entries : list value) :
    empty_volume_id b →
    lists_nonempty_ids bdms entries →
    lists_nonempty_ids (b :: bdms) entries
| lists_keep (b : bdm) (v : string) (bdms : list bdm) (entries : list value) :
    volume_id b = Some v → v ≠ "" →
    lists_nonempty_ids bdms entries →
    lists_nonempty_ids (b :: bdms) (VDict {["id" := VStr v]} :: entries).

(** [server['id']] of a server view that has one. *)
Definition view_id (server : value) : value :=
  match py_getitem server "id" with
  | Return v => v
  | Raise _ => VNone
  end.

(** The call [_extend_server] makes for a server view. *)
Definition fetch_of {Inst Vol : Type} (req : @request Inst) (server : value)
    : @call Inst Vol :=
  CallGetInstanceBdms (environ_context req) (get_db_instance req (view_id server)).

(** The instance cannot be read, whatever the backend state. *)
Definition bdms_unreadable {Inst Vol S : Type} (svc : @Services Inst Vol S)
    (context : RequestContext) (instance : Inst) (e : exn) : Prop :=
  ∀ s, ∃ s', compute_api_get_instance_bdms svc context instance s = (Raise e, s').

(** Every attempt the scan of [detach] makes is answered "already
    unattached": one attempt for each mapping of the requested volume, in
    the order of the mappings, each made in the backend state the attempt
    before it has left. *)
Fixpoint attempts_unattached {Inst Vol S : Type} (svc : @Services Inst Vol S)
    (context : RequestContext) (instance : Inst) (volume : Vol)
    (requested : value) (bdms : list bdm) (s : S) : Prop :=
  match bdms with
  | [] => True
  | b :: rest =>
      if decide (same_volume b requested) then
        ∃ msg s',
          compute_api_detach_volume svc context instance volume s
            = (Raise (VolumeUnattached msg), s')
          ∧ attempts_unattached svc context instance volume requested rest s'
      else attempts_unattached svc context instance volume requested rest s
  end.

(** The reads of the mappings a hook makes for the server views [servers],
    one after the other from the backend state [s], return the lists
    [bdmss]: each view has an [id], and the read for it, made in the state
    the read before it has left, returns its list. *)
Inductive mappings_read {Inst Vol S : Type} (svc : @Services Inst Vol S)
    (req : @request Inst) : list value → S → list (list bdm) → Prop :=
| mappings_read_nil (s : S) : mappings_read svc req [] s []
| mappings_read_cons (d : gmap string value) (server_id : value)
    (servers : list value) (s s' : S) (bdms : list bdm)
    (bdmss : list (list bdm)) :
    d !! "id" = Some server_id →
    compute_api_get_instance_bdms svc (environ_context req)
      (get_db_instance req server_id) s = (Return bdms, s') →
    mappings_read svc req servers s' bdmss →
    mappings_read svc req (VDict d :: servers) s (bdms :: bdmss).

(** The enrichment of the view of one server whose instance has the
    mappings [bdms]: the other fields are kept and, when every mapping has
    a non-empty volume id, the key of the extension lists them. *)
Definition view_enriched (bdms : list bdm) (server server' : value) : Prop :=
  ∃ d d',
    server = VDict d ∧ server' = VDict d'
    ∧ same_elsewhere d d'
    ∧ (Forall nonempty_volume_id bdms → lists_volumes bdms d').

(** Fakes that fail. *)
Module Faulty.

(** The mappings of the instance [bad] cannot be read. *)
Definition services (table : string → list bdm) (bad : string)
    : @Services string string unit :=
  {| compute_api_get := λ _ server_id s, (Return server_id, s);
     compute_api_get_instance_bdms := λ _ instance s,
       (if bool_decide (instance = bad)
        then Raise (OtherError "DBError" "connection lost")
        else Return (table instance), s);
     compute_api_attach_volume := λ _ _ _ _ s,
       (Raise (OtherError "RPCTimeout" "no reply"), s);
     compute_api_detach_volume := λ _ _ _ s,
       (Raise (OtherError "RPCTimeout" "no reply"), s);
     volume_api_get := λ _ volume_id s,
       (match volume_id with
        | VStr v => Return v
        | _ => Raise (VolumeNotFound "Volume could not be found.")
        end, s);
     is_uuid_like := Fake.uuid_like;
     py_repr := Fake.repr |}.

Definition three : response_object :=
  {| obj := {["servers" := VList [Fake.view Fake.SERVER; Fake.view "bad";
                                  Fake.view "fake-server-3"]]};
     serializers := [] |}.

(** A mix of mappings with and without a volume. *)
Definition mixed (instance : string) : list bdm :=
  [{| volume_id := None; device_name := Some "/dev/vda" |};
   Fake.row Fake.UUID1;
   {| volume_id := Some ""; device_name := Some "/dev/vdc" |};
   Fake.row Fake.UUID2].

(** The instance has mappings of three volumes, one of them twice. *)
Definition crowded (answers : list (outcome unit)) : Fake.state :=
  {| Fake.servers := [Fake.SERVER];
     Fake.volumes := [Fake.UUID1; Fake.UUID2; "not-a-uuid"];
     Fake.bdm_rows := [Fake.row Fake.UUID2; Fake.row Fake.UUID1;
                       Fake.row "not-a-uuid"; Fake.row Fake.UUID1];
     Fake.attach_answer := Raise (OtherError "RPCTimeout" "no reply");
     Fake.detach_answers := answers |}.

(** Every volume has been detached behind the back of the API. *)
Definition stale (table : string → list bdm) : @Services string string unit :=
  {| compute_api_get := λ _ server_id s, (Return server_id, s);
     compute_api_get_instance_bdms := λ _ instance s, (Return (table instance), s);
     compute_api_attach_volume := λ _ _ _ _ s, (Return (), s);
     compute_api_detach_volume := λ _ _ _ s,
       (Raise (VolumeUnattached "volume is not attached"), s);
     volume_api_get := λ _ volume_id s,
       (match volume_id with
        | VStr v => Return v
        | _ => Raise (VolumeNotFound "Volume could not be found.")
        end, s);
     is_uuid_like := Fake.uuid_like;
     py_repr := Fake.repr |}.

(** Two volumes on the server under test; the other servers have an
    ephemeral disk only. *)
Definition partly (instance : string) : list bdm :=
  if bool_decide (instance = Fake.SERVER)
  then [Fake.row Fake.UUID1; Fake.row Fake.UUID2]
  else [{| volume_id := None; device_name := Some "/dev/vdb" |}].

(** The second view has lost its [id]. *)
Definition second_without_id : response_object :=
  {| obj := {["servers" := VList [Fake.view Fake.SERVER;
                                  VDict {["name" := VStr "server"]};
                                  Fake.view "fake-server-3"]]};
     serializers := [] |}.

End Faulty.

(** ** Properties *)

Ltac unfold_monad :=
  unfold wsgi_response, mbind, mret, M_bind, M_ret, lift, raise, try_except,
    invoke, write_log in *.

(** *** The mutating actions and the policy check *)

(** C1.  A caller denied the mutating capability is to be refused with
    Forbidden before anything else happens.  The authorizers of [attach]
    and [detach] are soft and their answer is dropped: here a caller whom
    the policy denies both capabilities attaches and detaches a volume, the
    backend is called, and the answer is 202. *)
Theorem denied_caller_is_accepted :
  let req := Fake.req_of Fake.outsider in
  let attached :=
    {| Fake.servers := [Fake.SERVER]; Fake.volumes := [Fake.UUID1];
       Fake.bdm_rows := [Fake.row Fake.UUID1];
       Fake.attach_answer := Return (); Fake.detach_answers := [] |} in
  authorize_attach Fake.outsider = false
  ∧ authorize_detach Fake.outsider = false
  ∧ attach Fake.services req Fake.SERVER
      (Fake.attach_body (VStr Fake.UUID1)) (Fake.world_of Fake.state0)
    = (Return {| status := 202; resp_body := None |},
       {| backend := Fake.state0;
          calls := [CallComputeGet Fake.outsider Fake.SERVER;
                    CallAttachVolume Fake.outsider Fake.SERVER
                      (VStr Fake.UUID1) VNone];
          log := [LogAudit ("Attach volume " +:+ Fake.UUID1 +:+ " to instance "
                            +:+ Fake.SERVER +:+ " at None")] |})
  ∧ (detach Fake.services req Fake.SERVER
       (Fake.detach_body (VStr Fake.UUID1)) (Fake.world_of attached)).1
    = Return {| status := 202; resp_body := None |}
  ∧ filter (λ c, is_detach_call c = true)
      (calls (detach Fake.services req Fake.SERVER
                (Fake.detach_body (VStr Fake.UUID1)) (Fake.world_of attached)).2)
    = [CallDetachVolume Fake.outsider Fake.SERVER Fake.UUID1].
Proof. vm_compute. repeat split. Qed.

(** *** Malformed bodies *)

(** C8.  A malformed action body is to be refused with BadRequest.
    [detach] subscripts the body without a check: a [detach] object without
    [volume_id] raises [KeyError], and a body that is not a dict, or whose
    [detach] entry is not one, raises [TypeError].  [attach] checks that
    there is an [attach] object, but not that it has a [volume_id]. *)
Theorem malformed_body_escapes_bad_request {Inst Vol S : Type}
    (svc : @Services Inst Vol S) (req : request) (id : string) (w : world) :
  detach svc req id (VDict {["detach" := VDict ∅]}) w
    = (Raise (KeyError "volume_id"), w)
  ∧ detach svc req id (VDict ∅) w = (Raise (KeyError "detach"), w)
  ∧ detach svc req id VNone w
    = (Raise (TypeError "object cannot be subscripted by a string"), w)
  ∧ detach svc req id (VDict {["detach" := VStr "volume_id"]}) w
    = (Raise (TypeError "object cannot be subscripted by a string"), w)
  ∧ attach svc req id (VDict {["attach" := VDict ∅]}) w
    = (Raise (KeyError "volume_id"), w).
Proof. repeat split. Qed.

(** What [attach] does check: without a well-formed [attach] object the
    answer is BadRequest, and nothing else happens. *)
Lemma attach_invalid_body {Inst Vol S : Type}
    (svc : @Services Inst Vol S) (req : request) (id : string) (body : value)
    (w : world) :
  is_valid_body body "attach" = false →
  attach svc req id body w = (Raise (HTTPBadRequest "The request body invalid"), w).
Proof. intros H. unfold attach. unfold_monad. by rewrite H. Qed.

(** *** Validation of the volume id *)

(** C5.  [attach] with a volume id that is not UUID-like fails with
    BadRequest before anything is done: the world (backend state, trace of
    backend calls, log) is the one it started from, and the message shows
    the value that was refused. *)
Theorem attach_rejects_malformed_volume_id {Inst Vol S : Type}
    (svc : @Services Inst Vol S) (req : request) (id : string)
    (body attach_obj : gmap string value) (volume_id : value) (w : world) :
  body !! "attach" = Some (VDict attach_obj) →
  attach_obj !! "volume_id" = Some volume_id →
  is_uuid_like svc volume_id = false →
  attach svc req id (VDict body) w
    = (Raise (HTTPBadRequest
                ("Bad volumeId format: volumeId is not in proper format ("
                 +:+ py_format svc volume_id +:+ ")")), w)
  ∧ (∀ s, volume_id = VStr s → py_format svc volume_id = s).
Proof.
  intros Hbody Hvol Huuid. split.
  - unfold attach, _validate_volume_id, is_valid_body, py_getitem.
    unfold_monad. by rewrite Hbody, Hvol, Huuid.
  - by intros s ->.
Qed.

Lemma attach_rejects_malformed_volume_id_witness :
  attach Fake.services (Fake.req_of Fake.admin) Fake.SERVER
    (Fake.attach_body (VStr "not-a-uuid")) (Fake.world_of Fake.state0)
  = (Raise (HTTPBadRequest
              "Bad volumeId format: volumeId is not in proper format (not-a-uuid)"),
     Fake.world_of Fake.state0).
Proof.
  apply (attach_rejects_malformed_volume_id Fake.services (Fake.req_of Fake.admin)
           Fake.SERVER {["attach" := VDict {["volume_id" := VStr "not-a-uuid"]}]}
           {["volume_id" := VStr "not-a-uuid"]} (VStr "not-a-uuid")
           (Fake.world_of Fake.state0)); reflexivity.
Defined.

(** *** The hooks of [show] and [detail] *)

(** C7.  For a caller who is not authorized for the extension, both hooks
    return normally and change nothing: the response object, with every
    server view in it, is the one they were given, and so is the world, so
    that no backend call was made. *)
Theorem unauthorized_enrichment_is_noop {Inst Vol S : Type}
    (svc : @Services Inst Vol S) (req : request) (resp_obj : response_object)
    (id : string) (w : world) :
  authorize (environ_context req) = false →
  show svc req resp_obj id w = (Return resp_obj, w)
  ∧ detail svc req resp_obj w = (Return resp_obj, w).
Proof. intros H. unfold show, detail. by rewrite H. Qed.

Lemma unauthorized_enrichment_is_noop_witness :
  let resp :=
    {| obj := {["server" := VDict {["id" := VStr Fake.SERVER]};
                "servers" := VList [VDict {["id" := VStr Fake.SERVER]}]]};
       serializers := [] |} in
  show Fake.services (Fake.req_of Fake.outsider) resp Fake.SERVER
       (Fake.world_of Fake.state0) = (Return resp, Fake.world_of Fake.state0)
  ∧ detail Fake.services (Fake.req_of Fake.outsider) resp
       (Fake.world_of Fake.state0) = (Return resp, Fake.world_of Fake.state0).
Proof.
  intros resp.
  apply (unauthorized_enrichment_is_noop Fake.services
           (Fake.req_of Fake.outsider) resp Fake.SERVER (Fake.world_of Fake.state0)).
  reflexivity.
Defined.

Lemma extend_server_run {Inst Vol S : Type} (svc : @Services Inst Vol S)
    (context : RequestContext) (server : gmap string value) (instance : Inst)
    (w : world) (bdms : list bdm) (s' : S) :
  compute_api_get_instance_bdms svc context instance (backend w)
    = (Return bdms, s') →
  _extend_server svc context server instance w
    = (Return (<[volumes_attached_key := VList (attached_entries bdms)]> server),
       {| backend := s';
          calls := calls w ++ [CallGetInstanceBdms context instance];
          log := log w |}).
Proof. intros H. unfold _extend_server. unfold_monad. by rewrite H. Qed.

Lemma show_run {Inst Vol S : Type} (svc : @Services Inst Vol S)
    (req : request) (resp_obj : response_object) (id : string) (w : world)
    (server : gmap string value) (server_id : value) (bdms : list bdm) (s' : S) :
  authorize (environ_context req) = true →
  obj resp_obj !! "server" = Some (VDict server) →
  server !! "id" = Some server_id →
  compute_api_get_instance_bdms svc (environ_context req)
    (get_db_instance req server_id) (backend w) = (Return bdms, s') →
  show svc req resp_obj id w
    = (Return
         {| obj := <["server" :=
                      VDict (<[volumes_attached_key :=
                                 VList (attached_entries bdms)]> server)]>
                     (obj resp_obj);
            serializers := serializers resp_obj ++ [ExtendedVolumesServerTemplate] |},
       {| backend := s';
          calls := calls w ++ [CallGetInstanceBdms (environ_context req)
                                 (get_db_instance req server_id)];
          log := log w |}).
Proof.
  intros Hauth Hserver Hid Hbdms. unfold show. rewrite Hauth.
  unfold resp_attach, py_getitem; simpl. unfold mbind at 1 2, M_bind, lift.
  rewrite Hserver, Hid. unfold mbind, M_bind.
  by rewrite (extend_server_run _ _ _ _ _ _ _ Hbdms).
Qed.

Lemma attached_entries_nonempty (bdms : list bdm) :
  Forall nonempty_volume_id bdms →
  Forall2 (λ b e, ∃ v, volume_id b = Some v ∧ e = VDict {["id" := VStr v]})
    bdms (attached_entries bdms).
Proof.
  induction 1 as [|b bdms (v & Hv & Hne) _ IH]; [constructor|].
  unfold attached_entries in *. simpl. unfold truthy_volume_id at 1.
  rewrite Hv. destruct (decide (v = "")) as [->|_]; [done|].
  simpl. constructor; eauto.
Qed.

Lemma attached_entries_empty (bdms : list bdm) :
  Forall empty_volume_id bdms → attached_entries bdms = [].
Proof.
  induction 1 as [|b bdms Hb _ IH]; [done|].
  unfold attached_entries in *. simpl. unfold truthy_volume_id at 1.
  by destruct Hb as [-> | ->].
Qed.

Lemma extended_lists_volumes (bdms : list bdm) (server : gmap string value) :
  Forall nonempty_volume_id bdms →
  lists_volumes bdms
    (<[volumes_attached_key := VList (attached_entries bdms)]> server).
Proof.
  intros H. exists (attached_entries bdms). split_and!.
  - apply lookup_insert_eq.
  - symmetry. eapply Forall2_length, attached_entries_nonempty, H.
  - by apply attached_entries_nonempty.
Qed.

Lemma extended_same_elsewhere (entries : list value) (server : gmap string value) :
  same_elsewhere server (<[volumes_attached_key := VList entries]> server).
Proof. intros k Hk. by apply lookup_insert_ne. Qed.

Lemma detail_loop_run {Inst Vol S : Type} (svc : @Services Inst Vol S)
    (req : request) (context : RequestContext) (bdms_of : value → list bdm)
    (servers : list value) :
  Forall (λ server, ∃ d server_id,
            server = VDict d ∧ d !! "id" = Some server_id
            ∧ has_bdms svc context (get_db_instance req server_id)
                (bdms_of server_id)) servers →
  ∀ w, ∃ servers' w',
    detail_loop svc req context servers w = (Return servers', w')
    ∧ Forall2 (extended_by bdms_of) servers servers'.
Proof.
  induction 1 as [|server servers (d & sid & -> & Hid & Hbdms) _ IH]; intros w.
  - exists [], w. split; [done | constructor].
  - destruct (Hbdms (backend w)) as [s' Hs'].
    simpl. unfold mbind at 1, M_bind, lift. rewrite Hid.
    unfold mbind at 1, M_bind.
    rewrite (extend_server_run _ _ _ _ _ _ _ Hs').
    match goal with |- context [mbind _ _ ?w1] =>
      destruct (IH w1) as (servers' & w' & Hrun & Hall) end.
    unfold mbind at 1, M_bind. rewrite Hrun.
    eexists _, w'. split; [reflexivity|].
    constructor; [|done]. by exists d, sid.
Qed.

Lemma detail_run {Inst Vol S : Type} (svc : @Services Inst Vol S)
    (req : request) (resp_obj : response_object) (bdms_of : value → list bdm)
    (servers : list value) (w : world) :
  authorize (environ_context req) = true →
  obj resp_obj !! "servers" = Some (VList servers) →
  Forall (λ server, ∃ d server_id,
            server = VDict d ∧ d !! "id" = Some server_id
            ∧ has_bdms svc (environ_context req) (get_db_instance req server_id)
                (bdms_of server_id)) servers →
  ∃ servers' w',
    detail svc req resp_obj w
      = (Return {| obj := <["servers" := VList servers']> (obj resp_obj);
                   serializers := serializers resp_obj
                                  ++ [ExtendedVolumesServersTemplate] |}, w')
    ∧ Forall2 (extended_by bdms_of) servers servers'.
Proof.
  intros Hauth Hservers Hall.
  destruct (detail_loop_run svc req (environ_context req) bdms_of servers Hall w)
    as (servers' & w' & Hrun & Hext).
  exists servers', w'. split; [|done].
  unfold detail. rewrite Hauth.
  unfold resp_attach, py_getitem; simpl. unfold mbind at 1 2, M_bind, lift.
  rewrite Hservers. simpl. unfold mbind, M_bind. by rewrite Hrun.
Qed.

Lemma extended_by_key_is_set (bdms_of : value → list bdm) (server server' : value) :
  extended_by bdms_of server server' → key_is_set bdms_of server server'.
Proof.
  intros (d & sid & -> & Hid & ->). eexists d, sid, _, _.
  split_and!; [done..| |].
  - apply lookup_insert_eq.
  - apply attached_entries_empty.
Qed.

Lemma detail_loop_reads {Inst Vol S : Type} (svc : @Services Inst Vol S)
    (req : request) (servers : list value) (bdmss : list (list bdm)) (w : world) :
  mappings_read svc req servers (backend w) bdmss →
  ∃ servers' w',
    detail_loop svc req (environ_context req) servers w = (Return servers', w')
    ∧ Forall3 (λ server bdms server',
                 ∃ d, server = VDict d
                      ∧ server' = VDict (<[volumes_attached_key :=
                                             VList (attached_entries bdms)]> d))
        servers bdmss servers'.
Proof.
  remember (backend w) as s eqn:Hs. intros Hread. revert w Hs.
  induction Hread as [s|d sid servers s s' bdms bdmss Hid Hbdms _ IH];
    intros w ->.
  - exists [], w. split; [done | constructor].
  - simpl. unfold mbind at 1, M_bind, lift. rewrite Hid.
    unfold mbind at 1, M_bind.
    rewrite (extend_server_run _ _ _ _ _ _ _ Hbdms).
    match goal with |- context [mbind _ _ ?w1] =>
      destruct (IH w1 eq_refl) as (servers' & w' & Hrun & Hall) end.
    unfold mbind at 1, M_bind. rewrite Hrun.
    eexists _, w'. split; [reflexivity|].
    constructor; [|done]. by exists d.
Qed.

Lemma extended_view_enriched (bdms : list bdm) (d : gmap string value) :
  view_enriched bdms (VDict d)
    (VDict (<[volumes_attached_key := VList (attached_entries bdms)]> d)).
Proof.
  eexists d, _. split_and!; [done..| |].
  - apply extended_same_elsewhere.
  - apply extended_lists_volumes.
Qed.

(** C6.  For an authorized caller, [show] and [detail] return normally
    when the mappings of the servers can be read, and they enrich each
    server view on its own: every view keeps its other fields, and every
    view whose instance has N mappings, all with a non-empty volume id,
    gets under the key of the extension a list of exactly N entries, in the
    order of the mappings, each the object [{id: volume_id}], whatever the
    mappings of the other servers are.  The server of [show] and every
    server of [detail] are enriched in the same way. *)
Theorem enrichment_lists_attached_volumes {Inst Vol S : Type}
    (svc : @Services Inst Vol S) (req : request)
    (shown listed : response_object) (id : string)
    (server : value) (bdms : list bdm)
    (servers : list value) (bdmss : list (list bdm)) (w : world) :
  authorize (environ_context req) = true →
  obj shown !! "server" = Some server →
  mappings_read svc req [server] (backend w) [bdms] →
  obj listed !! "servers" = Some (VList servers) →
  mappings_read svc req servers (backend w) bdmss →
  (∃ server' w',
     show svc req shown id w
       = (Return {| obj := <["server" := server']> (obj shown);
                    serializers := serializers shown
                                   ++ [ExtendedVolumesServerTemplate] |}, w')
     ∧ view_enriched bdms server server')
  ∧ (∃ servers' w',
       detail svc req listed w
         = (Return {| obj := <["servers" := VList servers']> (obj listed);
                      serializers := serializers listed
                                     ++ [ExtendedVolumesServersTemplate] |}, w')
       ∧ Forall3 view_enriched bdmss servers servers').
Proof.
  intros Hauth Hshown Hread1 Hlisted Hread. split.
  - inversion Hread1 as [|d sid ? ? s' ? ? Hid Hbdms _]; subst.
    eexists _, _. split.
    + by apply (show_run svc req shown id w d sid bdms s').
    + apply extended_view_enriched.
  - destruct (detail_loop_reads svc req servers bdmss w Hread)
      as (servers' & w' & Hrun & Hall).
    exists servers', w'. split.
    + unfold detail. rewrite Hauth.
      unfold resp_attach, py_getitem; simpl.
      unfold mbind at 1 2, M_bind, lift.
      rewrite Hlisted. simpl. unfold mbind, M_bind. by rewrite Hrun.
    + clear Hrun Hread Hlisted.
      induction Hall as [|v bs v' vs bss vs' (d & -> & ->) _ IH];
        constructor; [apply extended_view_enriched | done].
Qed.

Lemma enrichment_lists_attached_volumes_witness :
  let svc := Fake.static_services Faulty.partly in
  let req := Fake.req_of Fake.admin in
  (∃ server' w',
     show svc req Fake.shown Fake.SERVER (Fake.world_of ())
       = (Return {| obj := <["server" := server']> (obj Fake.shown);
                    serializers := [ExtendedVolumesServerTemplate] |}, w')
     ∧ view_enriched (Faulty.partly Fake.SERVER) (Fake.view Fake.SERVER) server')
  ∧ (∃ servers' w',
       detail svc req Fake.listed (Fake.world_of ())
         = (Return {| obj := <["servers" := VList servers']> (obj Fake.listed);
                      serializers := [ExtendedVolumesServersTemplate] |}, w')
       ∧ Forall3 view_enriched
           [Faulty.partly Fake.SERVER; Faulty.partly "fake-server-2"]
           [Fake.view Fake.SERVER; Fake.view "fake-server-2"] servers').
Proof.
  intros svc req.
  apply (enrichment_lists_attached_volumes svc req Fake.shown Fake.listed
           Fake.SERVER (Fake.view Fake.SERVER) (Faulty.partly Fake.SERVER)
           [Fake.view Fake.SERVER; Fake.view "fake-server-2"]
           [Faulty.partly Fake.SERVER; Faulty.partly "fake-server-2"]
           (Fake.world_of ())).
  - reflexivity.
  - reflexivity.
  - eapply (mappings_read_cons svc req _ (VStr Fake.SERVER)); [reflexivity..|].
    constructor.
  - reflexivity.
  - eapply (mappings_read_cons svc req _ (VStr Fake.SERVER)); [reflexivity..|].
    eapply (mappings_read_cons svc req _ (VStr "fake-server-2"));
      [reflexivity..|].
    constructor.
Defined.

(** Each server of [detail] is enriched on its own: the first lists its
    two volumes, the second, whose only mapping has no volume, lists none. *)
Example detail_enriches_each_server :
  (detail (Fake.static_services Faulty.partly) (Fake.req_of Fake.admin)
     Fake.listed (Fake.world_of ())).1
  = Return
      {| obj := {["servers" :=
                   VList [VDict {["id" := VStr Fake.SERVER;
                                  "name" := VStr "server";
                                  "os-extended-volumes:volumes_attached" :=
                                    VList [VDict {["id" := VStr Fake.UUID1]};
                                           VDict {["id" := VStr Fake.UUID2]}]]};
                          VDict {["id" := VStr "fake-server-2";
                                  "name" := VStr "server";
                                  "os-extended-volumes:volumes_attached" :=
                                    VList []]}]]};
         serializers := [ExtendedVolumesServersTemplate] |}.
Proof. vm_compute. reflexivity. Qed.

Lemma extended_all_key_is_set (bdms_of : value → list bdm)
    (servers servers' : list value) :
  Forall2 (extended_by bdms_of) servers servers' →
  Forall2 (key_is_set bdms_of) servers servers'.
Proof.
  induction 1 as [|v v' vs vs' Hv _ IH]; constructor;
    [by apply extended_by_key_is_set | done].
Qed.

(** C10.  For an authorized caller, whatever the mappings of the
    instances are, [show] and [detail] return normally and every server
    view has the key [os-extended-volumes:volumes_attached] set to a list;
    for an instance without mappings, or whose mappings all have an empty
    or absent volume id, the list is empty and the key is still there. *)
Theorem enrichment_always_sets_key {Inst Vol S : Type}
    (svc : @Services Inst Vol S) (req : request) (bdms_of : value → list bdm)
    (shown listed : response_object) (id : string)
    (server : value) (servers : list value) (w : world) :
  authorize (environ_context req) = true →
  obj shown !! "server" = Some server →
  obj listed !! "servers" = Some (VList servers) →
  Forall (known_server svc req bdms_of) (server :: servers) →
  (∃ server' w',
     show svc req shown id w
       = (Return {| obj := <["server" := server']> (obj shown);
                    serializers := serializers shown
                                   ++ [ExtendedVolumesServerTemplate] |}, w')
     ∧ key_is_set bdms_of server server')
  ∧ (∃ servers' w',
       detail svc req listed w
         = (Return {| obj := <["servers" := VList servers']> (obj listed);
                      serializers := serializers listed
                                     ++ [ExtendedVolumesServersTemplate] |}, w')
       ∧ Forall2 (key_is_set bdms_of) servers servers').
Proof.
  intros Hauth Hshown Hlisted Hknown.
  apply Forall_cons in Hknown as [(d & sid & -> & Hid & Hbdms) Hknown]. split.
  - destruct (Hbdms (backend w)) as [s' Hs'].
    eexists _, _. split.
    + by apply (show_run svc req shown id w d sid (bdms_of sid) s').
    + apply extended_by_key_is_set. by exists d, sid.
  - destruct (detail_run svc req listed bdms_of servers w Hauth Hlisted Hknown)
      as (servers' & w' & Hrun & Hext).
    exists servers', w'. split; [done|]. by apply extended_all_key_is_set.
Qed.

Lemma enrichment_always_sets_key_witness :
  let svc := Fake.static_services Fake.table_no_volume in
  let req := Fake.req_of Fake.admin in
  let bdms_of := λ v, Fake.table_no_volume (get_db_instance req v) in
  (∃ server' w',
     show svc req Fake.shown Fake.SERVER (Fake.world_of ())
       = (Return {| obj := <["server" := server']> (obj Fake.shown);
                    serializers := [ExtendedVolumesServerTemplate] |}, w')
     ∧ key_is_set bdms_of (Fake.view Fake.SERVER) server')
  ∧ (∃ servers' w',
       detail svc req Fake.listed (Fake.world_of ())
         = (Return {| obj := <["servers" := VList servers']> (obj Fake.listed);
                      serializers := [ExtendedVolumesServersTemplate] |}, w')
       ∧ Forall2 (key_is_set bdms_of)
           [Fake.view Fake.SERVER; Fake.view "fake-server-2"] servers').
Proof.
  intros svc req bdms_of.
  apply (enrichment_always_sets_key svc req bdms_of Fake.shown Fake.listed
           Fake.SERVER (Fake.view Fake.SERVER)
           [Fake.view Fake.SERVER; Fake.view "fake-server-2"] (Fake.world_of ())).
  - reflexivity.
  - reflexivity.
  - reflexivity.
  - repeat constructor.
    + eexists _, (VStr Fake.SERVER). split_and!; [reflexivity..|].
      intros s. eexists. reflexivity.
    + eexists _, (VStr Fake.SERVER). split_and!; [reflexivity..|].
      intros s. eexists. reflexivity.
    + eexists _, (VStr "fake-server-2"). split_and!; [reflexivity..|].
      intros s. eexists. reflexivity.
Defined.

(** The fake server whose mappings carry no volume id is shown with the
    key set to the empty list. *)
Example show_no_volume :
  (show (Fake.static_services Fake.table_no_volume) (Fake.req_of Fake.admin)
     Fake.shown Fake.SERVER (Fake.world_of ())).1
  = Return
      {| obj := {["server" :=
                   VDict {["id" := VStr Fake.SERVER; "name" := VStr "server";
                           "os-extended-volumes:volumes_attached" := VList []]}]};
         serializers := [ExtendedVolumesServerTemplate] |}.
Proof. vm_compute. reflexivity. Qed.

(** *** Detach *)

Lemma volume_id_differs_false (b : bdm) (requested : value) :
  volume_id_differs b requested = false ↔ same_volume b requested.
Proof.
  unfold volume_id_differs, same_volume.
  destruct (volume_id b) as [s|], requested as [| | |t| |]; try (split; done).
  rewrite bool_decide_eq_false. split.
  - intros H. f_equal. by apply dec_stable.
  - intros [= ->]. auto.
Qed.

Lemma volume_id_differs_true (b : bdm) (requested : value) :
  volume_id_differs b requested = true ↔ ¬ same_volume b requested.
Proof.
  rewrite <-volume_id_differs_false. destruct (volume_id_differs b requested).
  - split; [discriminate | done].
  - split; [discriminate | intros H; by destruct H].
Qed.

Lemma detach_run_to_scan {Inst Vol S : Type} (svc : @Services Inst Vol S)
    (req : request) (id : string) (body detach_obj : gmap string value)
    (requested : value) (w : world) (instance : Inst) (volume : Vol)
    (bdms : list bdm) (s' : S) :
  body !! "detach" = Some (VDict detach_obj) →
  detach_obj !! "volume_id" = Some requested →
  lookups_return svc (environ_context req) id requested (backend w)
    instance volume bdms s' →
  bdms ≠ [] →
  detach svc req id (VDict body) w
    = wsgi_response 202
        (detach_loop svc (environ_context req) id instance volume requested bdms)
        (after_lookups svc (environ_context req) id requested instance w s').
Proof.
  intros Hbody Hvol (s1 & s2 & Hget & Hvolget & Hbdms) Hne.
  unfold detach, after_lookups, py_getitem. unfold_monad.
  rewrite Hbody, Hvol. simpl. rewrite Hget. simpl. rewrite Hvolget. simpl.
  rewrite Hbdms. simpl. rewrite <-!app_assoc. simpl. by destruct bdms.
Qed.

Lemma volume_id_differs_same (b : bdm) (v : string) :
  volume_id b = Some v → volume_id_differs b (VStr v) = false.
Proof. intros H. by apply volume_id_differs_false. Qed.

(** C2.  [detach] of the volume V1 from an instance with two mappings of
    V1: when the backend answers the first [detach_volume] with "already
    unattached" and the second with success, the operation succeeds, with
    202 and no body; the scan went on to the second mapping. *)
Theorem detach_continues_past_unattached {Inst Vol S : Type}
    (svc : @Services Inst Vol S) (req : request) (id : string)
    (body detach_obj : gmap string value) (v1 : string) (w : world)
    (instance : Inst) (volume : Vol) (b1 b2 : bdm) (msg : string)
    (s3 s4 s5 : S) :
  body !! "detach" = Some (VDict detach_obj) →
  detach_obj !! "volume_id" = Some (VStr v1) →
  lookups_return svc (environ_context req) id (VStr v1) (backend w)
    instance volume [b1; b2] s3 →
  volume_id b1 = Some v1 →
  volume_id b2 = Some v1 →
  compute_api_detach_volume svc (environ_context req) instance volume s3
    = (Raise (VolumeUnattached msg), s4) →
  compute_api_detach_volume svc (environ_context req) instance volume s4
    = (Return (), s5) →
  detach svc req id (VDict body) w
    = (Return {| status := 202; resp_body := None |},
       {| backend := s5;
          calls := calls w ++ [CallComputeGet (environ_context req) id;
                               CallVolumeGet (environ_context req) (VStr v1);
                               CallGetInstanceBdms (environ_context req) instance;
                               CallDetachVolume (environ_context req) instance volume;
                               CallDetachVolume (environ_context req) instance volume];
          log := log w ++ [LogAudit ("Detach volume " +:+ v1
                                     +:+ " from instance " +:+ id)] |}).
Proof.
  intros Hbody Hvol Hlook Hb1 Hb2 Hfirst Hsecond.
  rewrite (detach_run_to_scan svc req id body detach_obj (VStr v1) w
             instance volume [b1; b2] s3) by done.
  unfold after_lookups. simpl. unfold_monad.
  rewrite (volume_id_differs_same b1 v1 Hb1), (volume_id_differs_same b2 v1 Hb2).
  simpl. rewrite Hfirst. simpl. rewrite Hsecond. simpl.
  by rewrite <-!app_assoc.
Qed.

Lemma detach_continues_past_unattached_witness :
  let twice :=
    {| Fake.servers := [Fake.SERVER]; Fake.volumes := [Fake.UUID1];
       Fake.bdm_rows := [Fake.row Fake.UUID1; Fake.row Fake.UUID1];
       Fake.attach_answer := Return ();
       Fake.detach_answers := [Raise (VolumeUnattached "already detached");
                               Return ()] |} in
  (detach Fake.services (Fake.req_of Fake.admin) Fake.SERVER
     (Fake.detach_body (VStr Fake.UUID1)) (Fake.world_of twice)).1
  = Return {| status := 202; resp_body := None |}.
Proof.
  intros twice. unfold Fake.detach_body.
  rewrite (detach_continues_past_unattached Fake.services
             (Fake.req_of Fake.admin) Fake.SERVER
             {["detach" := VDict {["volume_id" := VStr Fake.UUID1]}]}
             {["volume_id" := VStr Fake.UUID1]} Fake.UUID1 (Fake.world_of twice)
             Fake.SERVER Fake.UUID1 (Fake.row Fake.UUID1) (Fake.row Fake.UUID1)
             "already detached" twice
             (Fake.detach_volume Fake.admin Fake.SERVER Fake.UUID1 twice).2
             (Fake.detach_volume Fake.admin Fake.SERVER Fake.UUID1
                (Fake.detach_volume Fake.admin Fake.SERVER Fake.UUID1 twice).2).2).
  - reflexivity.
  - reflexivity.
  - reflexivity.
  - exists twice, twice. repeat split.
  - reflexivity.
  - reflexivity.
  - reflexivity.
  - reflexivity.
Defined.

Lemma detach_no_mappings_run {Inst Vol S : Type} (svc : @Services Inst Vol S)
    (req : request) (id : string) (body detach_obj : gmap string value)
    (requested : value) (w : world) (instance : Inst) (volume : Vol) (s' : S) :
  body !! "detach" = Some (VDict detach_obj) →
  detach_obj !! "volume_id" = Some requested →
  lookups_return svc (environ_context req) id requested (backend w)
    instance volume [] s' →
  let scanned := after_lookups svc (environ_context req) id requested instance w s' in
  detach svc req id (VDict body) w
    = (Raise (HTTPNotFound (not_attached_msg svc requested id)),
       {| backend := s';
          calls := calls scanned;
          log := log scanned ++ [LogDebug (not_attached_msg svc requested id)] |}).
Proof.
  intros Hbody Hvol (s1 & s2 & Hget & Hvolget & Hbdms).
  unfold detach, after_lookups, py_getitem. unfold_monad.
  rewrite Hbody, Hvol. simpl. rewrite Hget. simpl. rewrite Hvolget. simpl.
  rewrite Hbdms. simpl. by rewrite <-!app_assoc.
Qed.

Lemma attempts_unattached_match {Inst Vol S : Type}
    (svc : @Services Inst Vol S) (context : RequestContext) (instance : Inst)
    (volume : Vol) (requested : value) (b : bdm) (rest : list bdm)
    (s s' : S) (msg : string) :
  same_volume b requested →
  compute_api_detach_volume svc context instance volume s
    = (Raise (VolumeUnattached msg), s') →
  attempts_unattached svc context instance volume requested rest s' →
  attempts_unattached svc context instance volume requested (b :: rest) s.
Proof.
  intros Hb Hdetach Hrest. simpl.
  destruct (decide (same_volume b requested)); [by eauto | done].
Qed.

Lemma attempts_unattached_skip {Inst Vol S : Type}
    (svc : @Services Inst Vol S) (context : RequestContext) (instance : Inst)
    (volume : Vol) (requested : value) (b : bdm) (rest : list bdm) (s : S) :
  ¬ same_volume b requested →
  attempts_unattached svc context instance volume requested rest s →
  attempts_unattached svc context instance volume requested (b :: rest) s.
Proof.
  intros Hb Hrest. simpl.
  destruct (decide (same_volume b requested)); [done | done].
Qed.

Lemma no_match_attempts_unattached {Inst Vol S : Type}
    (svc : @Services Inst Vol S) (context : RequestContext) (instance : Inst)
    (volume : Vol) (requested : value) (bdms : list bdm) (s : S) :
  Forall (λ b, ¬ same_volume b requested) bdms →
  attempts_unattached svc context instance volume requested bdms s.
Proof.
  induction 1 as [|b bdms Hb _ IH]; [done|].
  simpl. by rewrite decide_False.
Qed.

(** The scan of [detach], when each attempt it makes is answered "already
    unattached", ends in the [else] branch of the loop. *)
Lemma detach_loop_attempts_unattached {Inst Vol S : Type}
    (svc : @Services Inst Vol S) (context : RequestContext) (id : string)
    (instance : Inst) (volume : Vol) (requested : value) (bdms : list bdm) :
  ∀ w,
    attempts_unattached svc context instance volume requested bdms (backend w) →
    (detach_loop svc context id instance volume requested bdms w).1
    = Raise (HTTPNotFound (not_attached_msg svc requested id)).
Proof.
  induction bdms as [|b bdms IH]; intros w Hscan; [done|].
  simpl in *. destruct (decide (same_volume b requested)) as [Hb|Hb].
  - destruct Hscan as (msg & s' & Hdetach & Hscan).
    apply volume_id_differs_false in Hb. rewrite Hb.
    unfold try_except, invoke. rewrite Hdetach. by apply IH.
  - apply volume_id_differs_true in Hb. rewrite Hb. by apply IH.
Qed.

(** C3.  When the look-ups of [detach] succeed and the scan of the
    mappings ends without a successful [detach_volume], because no mapping
    is one of the requested volume or because every attempt the scan makes
    on such a mapping is answered "already unattached", the operation fails
    with NotFound, and the message says that the volume is not attached to
    the instance. *)
Theorem detach_exhausted_scan_is_not_found {Inst Vol S : Type}
    (svc : @Services Inst Vol S) (req : request) (id : string)
    (body detach_obj : gmap string value) (requested : value) (w : world)
    (instance : Inst) (volume : Vol) (bdms : list bdm) (s' : S) :
  body !! "detach" = Some (VDict detach_obj) →
  detach_obj !! "volume_id" = Some requested →
  lookups_return svc (environ_context req) id requested (backend w)
    instance volume bdms s' →
  Forall (λ b, ¬ same_volume b requested) bdms
  ∨ attempts_unattached svc (environ_context req) instance volume
      requested bdms s' →
  (detach svc req id (VDict body) w).1
    = Raise (HTTPNotFound ("Volume " +:+ py_format svc requested
                           +:+ " is not attached to the instance " +:+ id)).
Proof.
  intros Hbody Hvol Hlook Hscan.
  assert (Hattempts : attempts_unattached svc (environ_context req) instance
                        volume requested bdms s').
  { destruct Hscan as [Hnone|Hall]; [|done].
    by apply no_match_attempts_unattached. }
  destruct (decide (bdms = [])) as [->|Hne].
  - by rewrite (detach_no_mappings_run svc req id body detach_obj requested w
                  instance volume s').
  - rewrite (detach_run_to_scan svc req id body detach_obj requested w
               instance volume bdms s') by done.
    unfold wsgi_response, mbind, M_bind.
    pose proof (detach_loop_attempts_unattached svc (environ_context req) id
                  instance volume requested bdms
                  (after_lookups svc (environ_context req) id requested
                     instance w s') Hattempts) as Hloop.
    destruct (detach_loop _ _ _ _ _ _ _ _) as [[[]|e] w']; simpl in *;
      [discriminate Hloop | by injection Hloop as ->].
Qed.

Lemma detach_exhausted_scan_is_not_found_witness :
  let other :=
    {| Fake.servers := [Fake.SERVER]; Fake.volumes := [Fake.UUID1; Fake.UUID2];
       Fake.bdm_rows := [Fake.row Fake.UUID1];
       Fake.attach_answer := Return (); Fake.detach_answers := [] |} in
  let gone answers :=
    {| Fake.servers := [Fake.SERVER]; Fake.volumes := [Fake.UUID1; Fake.UUID2];
       Fake.bdm_rows := [Fake.row Fake.UUID1; Fake.row Fake.UUID2;
                         Fake.row Fake.UUID1];
       Fake.attach_answer := Return (); Fake.detach_answers := answers |} in
  let unattached := Raise (VolumeUnattached "already detached") in
  (detach Fake.services (Fake.req_of Fake.admin) Fake.SERVER
     (Fake.detach_body (VStr Fake.UUID2)) (Fake.world_of other)).1
  = Raise (HTTPNotFound ("Volume " +:+ Fake.UUID2
                         +:+ " is not attached to the instance " +:+ Fake.SERVER))
  ∧ (detach Fake.services (Fake.req_of Fake.admin) Fake.SERVER
       (Fake.detach_body (VStr Fake.UUID1))
       (Fake.world_of (gone [unattached; unattached]))).1
    = Raise (HTTPNotFound ("Volume " +:+ Fake.UUID1
                           +:+ " is not attached to the instance " +:+ Fake.SERVER)).
Proof.
  intros other gone unattached. split.
  - apply (detach_exhausted_scan_is_not_found Fake.services
             (Fake.req_of Fake.admin) Fake.SERVER
             {["detach" := VDict {["volume_id" := VStr Fake.UUID2]}]}
             {["volume_id" := VStr Fake.UUID2]} (VStr Fake.UUID2)
             (Fake.world_of other) Fake.SERVER Fake.UUID2
             [Fake.row Fake.UUID1] other).
    + reflexivity.
    + reflexivity.
    + exists other, other. repeat split.
    + left. apply Forall_cons. split; [intros [=] | constructor].
  - apply (detach_exhausted_scan_is_not_found Fake.services
             (Fake.req_of Fake.admin) Fake.SERVER
             {["detach" := VDict {["volume_id" := VStr Fake.UUID1]}]}
             {["volume_id" := VStr Fake.UUID1]} (VStr Fake.UUID1)
             (Fake.world_of (gone [unattached; unattached])) Fake.SERVER
             Fake.UUID1
             [Fake.row Fake.UUID1; Fake.row Fake.UUID2; Fake.row Fake.UUID1]
             (gone [unattached; unattached])).
    + reflexivity.
    + reflexivity.
    + exists (gone [unattached; unattached]), (gone [unattached; unattached]).
      repeat split.
    + right.
      apply (attempts_unattached_match _ _ _ _ _ _ _ _ (gone [unattached])
               "already detached"); [reflexivity | reflexivity |].
      apply attempts_unattached_skip; [intros [=]|].
      apply (attempts_unattached_match _ _ _ _ _ _ _ _ (gone [])
               "already detached"); [reflexivity | reflexivity |].
      exact I.
Defined.

(** C4.  When the instance has no mapping at all, [detach] fails with
    NotFound and [detach_volume] is not called: the trace holds the three
    look-ups and nothing more.  This holds from any world, so also from the
    one a successful [detach] has left, if the mappings are then empty. *)
Theorem detach_without_mappings {Inst Vol S : Type}
    (svc : @Services Inst Vol S) (req : request) (id : string)
    (body detach_obj : gmap string value) (requested : value) (w : world)
    (instance : Inst) (volume : Vol) (s' : S) :
  body !! "detach" = Some (VDict detach_obj) →
  detach_obj !! "volume_id" = Some requested →
  lookups_return svc (environ_context req) id requested (backend w)
    instance volume [] s' →
  let result := detach svc req id (VDict body) w in
  result.1
    = Raise (HTTPNotFound ("Volume " +:+ py_format svc requested
                           +:+ " is not attached to the instance " +:+ id))
  ∧ calls result.2
    = calls w ++ [CallComputeGet (environ_context req) id;
                  CallVolumeGet (environ_context req) requested;
                  CallGetInstanceBdms (environ_context req) instance]
  ∧ detach_volume_calls result.2 = detach_volume_calls w
  ∧ (∀ w0 accepted,
       detach svc req id (VDict body) w0 = (Return accepted, w) →
       ∃ e, result.1 = Raise (HTTPNotFound e)).
Proof.
  intros Hbody Hvol Hlook result. unfold result.
  rewrite (detach_no_mappings_run svc req id body detach_obj requested w
             instance volume s') by done.
  simpl. split_and!; [done..| |by eauto].
  unfold detach_volume_calls. simpl.
  rewrite filter_app. simpl. by rewrite length_app, Nat.add_0_r.
Qed.

Lemma detach_without_mappings_witness :
  let attached :=
    {| Fake.servers := [Fake.SERVER]; Fake.volumes := [Fake.UUID1];
       Fake.bdm_rows := [Fake.row Fake.UUID1];
       Fake.attach_answer := Return (); Fake.detach_answers := [] |} in
  let detached :=
    {| Fake.servers := [Fake.SERVER]; Fake.volumes := [Fake.UUID1];
       Fake.bdm_rows := [];
       Fake.attach_answer := Return (); Fake.detach_answers := [] |} in
  let req := Fake.req_of Fake.admin in
  let body := Fake.detach_body (VStr Fake.UUID1) in
  let first := detach Fake.services req Fake.SERVER body (Fake.world_of attached) in
  let second := detach Fake.services req Fake.SERVER body first.2 in
  first.1 = Return {| status := 202; resp_body := None |}
  ∧ backend first.2 = detached
  ∧ second.1
    = Raise (HTTPNotFound ("Volume " +:+ Fake.UUID1
                           +:+ " is not attached to the instance " +:+ Fake.SERVER))
  ∧ detach_volume_calls second.2 = detach_volume_calls first.2.
Proof.
  intros attached detached req body first second.
  split; [reflexivity|]. split; [reflexivity|].
  destruct (detach_without_mappings Fake.services req Fake.SERVER
              {["detach" := VDict {["volume_id" := VStr Fake.UUID1]}]}
              {["volume_id" := VStr Fake.UUID1]} (VStr Fake.UUID1)
              first.2 Fake.SERVER Fake.UUID1 detached)
    as (Hfail & _ & Hcalls & _).
  - reflexivity.
  - reflexivity.
  - exists detached, detached. repeat split.
  - split; [exact Hfail | exact Hcalls].
Defined.

(** When the backend answers every attempt with "already unattached", the
    scan goes through all the mappings and ends with NotFound. *)
Example detach_all_unattached :
  let twice :=
    {| Fake.servers := [Fake.SERVER]; Fake.volumes := [Fake.UUID1];
       Fake.bdm_rows := [Fake.row Fake.UUID1; Fake.row Fake.UUID1];
       Fake.attach_answer := Return ();
       Fake.detach_answers := [Raise (VolumeUnattached "already detached");
                               Raise (VolumeUnattached "already detached")] |} in
  let result := detach Fake.services (Fake.req_of Fake.admin) Fake.SERVER
                  (Fake.detach_body (VStr Fake.UUID1)) (Fake.world_of twice) in
  result.1
  = Raise (HTTPNotFound ("Volume " +:+ Fake.UUID1
                         +:+ " is not attached to the instance " +:+ Fake.SERVER))
  ∧ detach_volume_calls result.2 = 2.
Proof. vm_compute. split; reflexivity. Qed.

(** *** Attach *)

Lemma attach_failure_unique (e e1 e2 : exn) :
  attach_failure e e1 → attach_failure e e2 → e1 = e2.
Proof. by destruct 1; inversion 1. Qed.

Lemma attach_except_failure (Inst Vol S : Type) (e e' : exn) :
  attach_failure e e' →
  ∃ k, @attach_except Inst Vol S e = Some k ∧ ∀ w, k w = (Raise e', w).
Proof. destruct 1; eexists; (split; [reflexivity|done]). Qed.

(** C9.  [attach] with a well-formed body and a UUID-like volume id
    reaches the backend.  Each failure the backend signals, from the
    look-up of the instance or from [attach_volume], becomes the one error
    of the table: instance or volume not found, NotFound; instance in an
    invalid state, Conflict with a message for this operation; invalid
    volume, BadRequest; invalid device path, BadRequest.  When the backend
    succeeds the answer is 202 without a body. *)
Theorem attach_maps_backend_outcomes {Inst Vol S : Type}
    (svc : @Services Inst Vol S) (req : request) (id : string)
    (body attach_obj : gmap string value) (volume_id : value) (w : world) :
  body !! "attach" = Some (VDict attach_obj) →
  attach_obj !! "volume_id" = Some volume_id →
  is_uuid_like svc volume_id = true →
  let context := environ_context req in
  let device := default VNone (attach_obj !! "device") in
  let audit := LogAudit ("Attach volume " +:+ py_format svc volume_id
                         +:+ " to instance " +:+ id
                         +:+ " at " +:+ py_format svc device) in
  (∀ e e' s1,
     compute_api_get svc context id (backend w) = (Raise e, s1) →
     attach_failure e e' →
     attach svc req id (VDict body) w
       = (Raise e', {| backend := s1;
                       calls := calls w ++ [CallComputeGet context id];
                       log := log w ++ [audit] |}))
  ∧ (∀ instance e e' s1 s2,
       compute_api_get svc context id (backend w) = (Return instance, s1) →
       compute_api_attach_volume svc context instance volume_id device s1
         = (Raise e, s2) →
       attach_failure e e' →
       attach svc req id (VDict body) w
         = (Raise e', {| backend := s2;
                         calls := calls w
                                  ++ [CallComputeGet context id;
                                      CallAttachVolume context instance
                                        volume_id device];
                         log := log w ++ [audit] |}))
  ∧ (∀ instance s1 s2,
       compute_api_get svc context id (backend w) = (Return instance, s1) →
       compute_api_attach_volume svc context instance volume_id device s1
         = (Return (), s2) →
       attach svc req id (VDict body) w
         = (Return {| status := 202; resp_body := None |},
            {| backend := s2;
               calls := calls w
                        ++ [CallComputeGet context id;
                            CallAttachVolume context instance volume_id device];
               log := log w ++ [audit] |})).
Proof.
  intros Hbody Hvol Huuid context device audit.
  split_and!.
  - intros e e' s1 Hget Hfail.
    destruct (attach_except_failure Inst Vol S e e' Hfail) as (k & Hk & Hraise).
    unfold attach, _validate_volume_id, is_valid_body, py_getitem, py_get.
    unfold_monad. rewrite Hbody, Hvol, Huuid. simpl.
    fold context device. rewrite Hget, Hk, Hraise. done.
  - intros instance e e' s1 s2 Hget Hatt Hfail.
    destruct (attach_except_failure Inst Vol S e e' Hfail) as (k & Hk & Hraise).
    unfold attach, _validate_volume_id, is_valid_body, py_getitem, py_get.
    unfold_monad. rewrite Hbody, Hvol, Huuid. simpl.
    fold context device. rewrite Hget. simpl. rewrite Hatt, Hk, Hraise.
    by rewrite <-!app_assoc.
  - intros instance s1 s2 Hget Hatt.
    unfold attach, _validate_volume_id, is_valid_body, py_getitem, py_get.
    unfold_monad. rewrite Hbody, Hvol, Huuid. simpl.
    fold context device. rewrite Hget. simpl. rewrite Hatt.
    by rewrite <-!app_assoc.
Qed.

Lemma attach_maps_backend_outcomes_witness :
  let req := Fake.req_of Fake.admin in
  let body := Fake.attach_body (VStr Fake.UUID1) in
  let failing e :=
    Fake.world_of
      {| Fake.servers := [Fake.SERVER]; Fake.volumes := [Fake.UUID1];
         Fake.bdm_rows := []; Fake.attach_answer := Raise e;
         Fake.detach_answers := [] |} in
  (attach Fake.services req Fake.SERVER body (Fake.world_of Fake.state0)).1
    = Return {| status := 202; resp_body := None |}
  ∧ (attach Fake.services req "no-such-server" body (Fake.world_of Fake.state0)).1
    = Raise (HTTPNotFound "Instance no-such-server could not be found.")
  ∧ (attach Fake.services req Fake.SERVER body
       (failing (InstanceInvalidState "vm_state" "suspended"))).1
    = Raise (HTTPConflict
               "Cannot 'attach_volume' while instance is in vm_state suspended")
  ∧ (attach Fake.services req Fake.SERVER body
       (failing (InvalidVolume "already attached"))).1
    = Raise (HTTPBadRequest "already attached")
  ∧ (attach Fake.services req Fake.SERVER body
       (failing (InvalidDevicePath "/dev/none"))).1
    = Raise (HTTPBadRequest "/dev/none").
Proof.
  intros req body failing.
  pose proof (λ id w,
    attach_maps_backend_outcomes Fake.services req id
      {["attach" := VDict {["volume_id" := VStr Fake.UUID1]}]}
      {["volume_id" := VStr Fake.UUID1]} (VStr Fake.UUID1) w
      eq_refl eq_refl eq_refl) as H.
  unfold body, Fake.attach_body. split_and!.
  - destruct (H Fake.SERVER (Fake.world_of Fake.state0)) as (_ & _ & Hok).
    erewrite Hok; reflexivity.
  - destruct (H "no-such-server" (Fake.world_of Fake.state0)) as (Hget & _ & _).
    erewrite Hget; [reflexivity | reflexivity | constructor].
  - destruct (H Fake.SERVER (failing (InstanceInvalidState "vm_state" "suspended")))
      as (_ & Hatt & _).
    erewrite Hatt; [reflexivity | reflexivity | reflexivity | constructor].
  - destruct (H Fake.SERVER (failing (InvalidVolume "already attached")))
      as (_ & Hatt & _).
    erewrite Hatt; [reflexivity | reflexivity | reflexivity | constructor].
  - destruct (H Fake.SERVER (failing (InvalidDevicePath "/dev/none")))
      as (_ & Hatt & _).
    erewrite Hatt; [reflexivity | reflexivity | reflexivity | constructor].
Defined.

(** ** Further properties of the controller *)

(** *** The hooks: filtering, repetition, trace and failures *)

Lemma attached_entries_lists (bdms : list bdm) :
  lists_nonempty_ids bdms (attached_entries bdms).
Proof.
  induction bdms as [|b bdms IH]; [constructor|].
  unfold attached_entries in *. simpl. unfold truthy_volume_id at 1.
  destruct (volume_id b) as [v|] eqn:Hv.
  - destruct (decide (v = "")) as [->|Hne].
    + apply lists_skip; [by right | done].
    + simpl. by apply lists_keep.
  - apply lists_skip; [by left | done].
Qed.

Lemma lists_nonempty_ids_unique (bdms : list bdm) (es1 es2 : list value) :
  lists_nonempty_ids bdms es1 → lists_nonempty_ids bdms es2 → es1 = es2.
Proof.
  intros H1. revert es2.
  induction H1 as [|b bdms es1 Hb _ IH|b v bdms es1 Hv Hne _ IH];
    intros es2 H2; inversion H2 as [|? ? ? Hb' H2'|? v' ? ? Hv' Hne' H2'];
    subst.
  - done.
  - by apply IH.
  - destruct Hb as [Hb|Hb]; rewrite Hb in Hv'; [done|]. by injection Hv' as <-.
  - destruct Hb' as [Hb'|Hb']; rewrite Hb' in Hv; [done|]. by injection Hv as <-.
  - rewrite Hv in Hv'. injection Hv' as <-. f_equal. by apply IH.
Qed.

(** X1.  For an authorized caller, whatever mix of mappings the instance
    has, [show] lists under the key of the extension the volume ids of the
    mappings that have one, in the order of the mappings, and leaves out
    the mappings whose volume id is [None] or empty; no other list does,
    and the other fields of the view are kept. *)
Theorem show_lists_nonempty_ids_only {Inst Vol S : Type}
    (svc : @Services Inst Vol S) (req : request) (resp_obj : response_object)
    (id : string) (w : world) (server : gmap string value) (server_id : value)
    (bdms : list bdm) (s' : S) :
  authorize (environ_context req) = true →
  obj resp_obj !! "server" = Some (VDict server) →
  server !! "id" = Some server_id →
  compute_api_get_instance_bdms svc (environ_context req)
    (get_db_instance req server_id) (backend w) = (Return bdms, s') →
  ∃ entries server',
    (show svc req resp_obj id w).1
      = Return {| obj := <["server" := VDict server']> (obj resp_obj);
                  serializers := serializers resp_obj
                                 ++ [ExtendedVolumesServerTemplate] |}
    ∧ server' !! "os-extended-volumes:volumes_attached" = Some (VList entries)
    ∧ lists_nonempty_ids bdms entries
    ∧ (∀ entries', lists_nonempty_ids bdms entries' → entries' = entries)
    ∧ same_elsewhere server server'.
Proof.
  intros Hauth Hserver Hid Hbdms. eexists (attached_entries bdms), _.
  rewrite (show_run svc req resp_obj id w server server_id bdms s') by done.
  split_and!.
  - reflexivity.
  - apply lookup_insert_eq.
  - apply attached_entries_lists.
  - intros entries' H. eapply lists_nonempty_ids_unique; [done|].
    apply attached_entries_lists.
  - apply extended_same_elsewhere.
Qed.

Lemma show_lists_nonempty_ids_only_witness :
  ∃ server',
    (show (Fake.static_services Faulty.mixed) (Fake.req_of Fake.admin)
       Fake.shown Fake.SERVER (Fake.world_of ())).1
      = Return {| obj := <["server" := VDict server']> (obj Fake.shown);
                  serializers := [ExtendedVolumesServerTemplate] |}
    ∧ server' !! "os-extended-volumes:volumes_attached"
      = Some (VList [VDict {["id" := VStr Fake.UUID1]};
                     VDict {["id" := VStr Fake.UUID2]}]).
Proof.
  destruct (show_lists_nonempty_ids_only (Fake.static_services Faulty.mixed)
              (Fake.req_of Fake.admin) Fake.shown Fake.SERVER (Fake.world_of ())
              {["id" := VStr Fake.SERVER; "name" := VStr "server"]}
              (VStr Fake.SERVER) (Faulty.mixed Fake.SERVER) ()
              eq_refl eq_refl eq_refl eq_refl)
    as (entries & server' & Hshow & Hkey & _ & Hunique & _).
  exists server'. split; [exact Hshow|].
  rewrite Hkey. f_equal. f_equal. symmetry. apply Hunique.
  apply lists_skip; [by left|]. apply lists_keep; [reflexivity | discriminate |].
  apply lists_skip; [by right|]. apply lists_keep; [reflexivity | discriminate |].
  constructor.
Defined.

(** X2.  [show] can be run again on its own result: for an authorized
    caller and an instance whose mappings do not change, the second run
    finds the key already there, writes the same list over it, and returns
    the same view as the first run. *)
Theorem show_again_keeps_the_view {Inst Vol S : Type}
    (svc : @Services Inst Vol S) (req : request) (bdms_of : value → list bdm)
    (resp_obj : response_object) (id : string) (server : value) (w : world) :
  authorize (environ_context req) = true →
  obj resp_obj !! "server" = Some server →
  known_server svc req bdms_of server →
  ∃ once w1 again w2,
    show svc req resp_obj id w = (Return once, w1)
    ∧ show svc req once id w1 = (Return again, w2)
    ∧ obj again = obj once.
Proof.
  intros Hauth Hserver (d & sid & -> & Hid & Hbdms).
  destruct (Hbdms (backend w)) as [s1 Hs1].
  eexists _, _. 
  rewrite (show_run svc req resp_obj id w d sid (bdms_of sid) s1) by done.
  destruct (Hbdms s1) as [s2 Hs2].
  eexists _, _. split; [reflexivity|].
  erewrite show_run; [split; [reflexivity|] | done | apply lookup_insert_eq | | ].
  - simpl. by rewrite !insert_insert_eq.
  - rewrite lookup_insert_ne; [exact Hid | done].
  - exact Hs2.
Qed.

Lemma show_again_keeps_the_view_witness :
  ∃ once w1 again w2,
    show (Fake.static_services Fake.table) (Fake.req_of Fake.admin)
      Fake.shown Fake.SERVER (Fake.world_of ()) = (Return once, w1)
    ∧ show (Fake.static_services Fake.table) (Fake.req_of Fake.admin)
        once Fake.SERVER w1 = (Return again, w2)
    ∧ obj again = obj once.
Proof.
  apply (show_again_keeps_the_view (Fake.static_services Fake.table)
           (Fake.req_of Fake.admin)
           (λ v, Fake.table (get_db_instance (Fake.req_of Fake.admin) v))
           Fake.shown Fake.SERVER (Fake.view Fake.SERVER) (Fake.world_of ())).
  - reflexivity.
  - reflexivity.
  - eexists _, (VStr Fake.SERVER). split_and!; [reflexivity..|].
    intros s. eexists. reflexivity.
Defined.

Lemma detail_loop_trace {Inst Vol S : Type} (svc : @Services Inst Vol S)
    (req : request) (bdms_of : value → list bdm) (servers : list value) :
  Forall (known_server svc req bdms_of) servers →
  ∀ w, ∃ servers' w',
    detail_loop svc req (environ_context req) servers w = (Return servers', w')
    ∧ length servers' = length servers
    ∧ calls w' = calls w ++ (fetch_of req <$> servers)
    ∧ log w' = log w.
Proof.
  induction 1 as [|server servers (d & sid & -> & Hid & Hbdms) _ IH]; intros w.
  - exists [], w. split_and!; [done..| |done]. by rewrite app_nil_r.
  - destruct (Hbdms (backend w)) as [s' Hs'].
    simpl. unfold mbind at 1, M_bind, lift. rewrite Hid.
    unfold mbind at 1, M_bind.
    rewrite (extend_server_run _ _ _ _ _ _ _ Hs').
    match goal with |- context [mbind _ _ ?w1] =>
      destruct (IH w1) as (servers' & w' & Hrun & Hlen & Hcalls & Hlog) end.
    unfold mbind at 1, M_bind. rewrite Hrun.
    eexists _, w'. split_and!; [reflexivity | | |done].
    + simpl. by rewrite Hlen.
    + rewrite Hcalls. simpl. rewrite <-app_assoc. simpl.
      unfold fetch_of at 2, view_id. simpl. by rewrite Hid.
Qed.

(** X3.  For an authorized caller [detail] returns as many server views as
    it was given, and reads the mappings once per view, in the order of
    the views: the trace grows by one [get_instance_bdms] call for each
    server, made with the instance the request caches for its id; nothing
    is logged. *)
Theorem detail_reads_each_server_once {Inst Vol S : Type}
    (svc : @Services Inst Vol S) (req : request) (bdms_of : value → list bdm)
    (resp_obj : response_object) (servers : list value) (w : world) :
  authorize (environ_context req) = true →
  obj resp_obj !! "servers" = Some (VList servers) →
  Forall (known_server svc req bdms_of) servers →
  ∃ servers' w',
    detail svc req resp_obj w
      = (Return {| obj := <["servers" := VList servers']> (obj resp_obj);
                   serializers := serializers resp_obj
                                  ++ [ExtendedVolumesServersTemplate] |}, w')
    ∧ length servers' = length servers
    ∧ calls w' = calls w ++ (fetch_of req <$> servers)
    ∧ log w' = log w.
Proof.
  intros Hauth Hservers Hall.
  destruct (detail_loop_trace svc req bdms_of servers Hall w)
    as (servers' & w' & Hrun & Hrest).
  exists servers', w'. split; [|done].
  unfold detail. rewrite Hauth.
  unfold resp_attach, py_getitem; simpl. unfold mbind at 1 2, M_bind, lift.
  rewrite Hservers. simpl. unfold mbind, M_bind. by rewrite Hrun.
Qed.

Lemma detail_reads_each_server_once_witness :
  ∃ servers' w',
    detail (Fake.static_services Fake.table) (Fake.req_of Fake.admin)
      Fake.listed (Fake.world_of ())
      = (Return {| obj := <["servers" := VList servers']> (obj Fake.listed);
                   serializers := [ExtendedVolumesServersTemplate] |}, w')
    ∧ length servers' = 2
    ∧ calls w' = [CallGetInstanceBdms Fake.admin Fake.SERVER;
                  CallGetInstanceBdms Fake.admin "fake-server-2"]
    ∧ log w' = [].
Proof.
  apply (detail_reads_each_server_once (Fake.static_services Fake.table)
           (Fake.req_of Fake.admin)
           (λ v, Fake.table (get_db_instance (Fake.req_of Fake.admin) v))
           Fake.listed [Fake.view Fake.SERVER; Fake.view "fake-server-2"]
           (Fake.world_of ())).
  - reflexivity.
  - reflexivity.
  - repeat constructor.
    + eexists _, (VStr Fake.SERVER). split_and!; [reflexivity..|].
      intros s. eexists. reflexivity.
    + eexists _, (VStr "fake-server-2"). split_and!; [reflexivity..|].
      intros s. eexists. reflexivity.
Defined.

Lemma extend_server_fails {Inst Vol S : Type} (svc : @Services Inst Vol S)
    (context : RequestContext) (server : gmap string value) (instance : Inst)
    (w : world) (e : exn) (s' : S) :
  compute_api_get_instance_bdms svc context instance (backend w) = (Raise e, s') →
  _extend_server svc context server instance w
    = (Raise e,
       {| backend := s';
          calls := calls w ++ [CallGetInstanceBdms context instance];
          log := log w |}).
Proof. intros H. unfold _extend_server. unfold_monad. by rewrite H. Qed.

Lemma fetch_of_view {Inst Vol : Type} (req : @request Inst)
    (d : gmap string value) (server_id : value) :
  d !! "id" = Some server_id →
  @fetch_of Inst Vol req (VDict d)
  = CallGetInstanceBdms (environ_context req) (get_db_instance req server_id).
Proof. intros H. unfold fetch_of, view_id. simpl. by rewrite H. Qed.

Lemma detail_loop_stops {Inst Vol S : Type} (svc : @Services Inst Vol S)
    (req : request) (bdms_of : value → list bdm)
    (pre post : list value) (d : gmap string value) (server_id : value)
    (e : exn) :
  Forall (known_server svc req bdms_of) pre →
  d !! "id" = Some server_id →
  bdms_unreadable svc (environ_context req) (get_db_instance req server_id) e →
  ∀ w, ∃ w',
    detail_loop svc req (environ_context req) (pre ++ VDict d :: post) w
      = (Raise e, w')
    ∧ calls w' = calls w ++ (fetch_of req <$> (pre ++ [VDict d])).
Proof.
  intros Hpre Hid Hbad.
  induction Hpre as [|server pre (d0 & sid0 & -> & Hid0 & Hbdms) _ IH]; intros w.
  - destruct (Hbad (backend w)) as [s' Hs'].
    simpl. unfold mbind at 1, M_bind, lift. rewrite Hid.
    unfold mbind at 1, M_bind.
    rewrite (extend_server_fails _ _ _ _ _ _ _ Hs').
    eexists. split; [reflexivity|]. simpl.
    unfold fetch_of, view_id. simpl. by rewrite Hid.
  - destruct (Hbdms (backend w)) as [s' Hs'].
    simpl. unfold mbind at 1, M_bind, lift. rewrite Hid0.
    unfold mbind at 1, M_bind.
    rewrite (extend_server_run _ _ _ _ _ _ _ Hs').
    match goal with |- context [mbind _ _ ?w1] =>
      destruct (IH w1) as (w' & Hrun & Hcalls) end.
    unfold mbind at 1, M_bind. rewrite Hrun.
    exists w'. split; [reflexivity|].
    rewrite Hcalls. simpl. rewrite <-app_assoc. simpl.
    by rewrite (fetch_of_view req d0 sid0 Hid0).
Qed.

(** X5.  The hooks do not catch what the backend raises.  When the
    mappings of an instance cannot be read, [show] raises the exception of
    the backend; [detail] raises it at the first server it happens for,
    after having read the servers before it, and does not read the servers
    after it. *)
Theorem hooks_let_backend_failures_through {Inst Vol S : Type}
    (svc : @Services Inst Vol S) (req : request) (bdms_of : value → list bdm)
    (shown listed : response_object) (id : string)
    (pre post : list value) (d : gmap string value) (server_id : value)
    (e : exn) (w : world) :
  authorize (environ_context req) = true →
  obj shown !! "server" = Some (VDict d) →
  obj listed !! "servers" = Some (VList (pre ++ VDict d :: post)) →
  Forall (known_server svc req bdms_of) pre →
  d !! "id" = Some server_id →
  bdms_unreadable svc (environ_context req) (get_db_instance req server_id) e →
  (∃ w', show svc req shown id w = (Raise e, w')
         ∧ calls w' = calls w ++ [fetch_of req (VDict d)])
  ∧ (∃ w', detail svc req listed w = (Raise e, w')
           ∧ calls w' = calls w ++ (fetch_of req <$> (pre ++ [VDict d]))).
Proof.
  intros Hauth Hshown Hlisted Hpre Hid Hbad. split.
  - destruct (Hbad (backend w)) as [s' Hs'].
    unfold show. rewrite Hauth.
    unfold resp_attach, py_getitem; simpl. unfold mbind at 1 2, M_bind, lift.
    rewrite Hshown, Hid. unfold mbind, M_bind.
    rewrite (extend_server_fails _ _ _ _ _ _ _ Hs').
    eexists. split; [reflexivity|]. simpl.
    unfold fetch_of, view_id. simpl. by rewrite Hid.
  - destruct (detail_loop_stops svc req bdms_of pre post d server_id e
                Hpre Hid Hbad w) as (w' & Hrun & Hcalls).
    exists w'. split; [|done].
    unfold detail. rewrite Hauth.
    unfold resp_attach, py_getitem; simpl. unfold mbind at 1 2, M_bind, lift.
    rewrite Hlisted. simpl. unfold mbind, M_bind. by rewrite Hrun.
Qed.

Lemma hooks_let_backend_failures_through_witness :
  let svc := Faulty.services Fake.table "bad" in
  let req := Fake.req_of Fake.admin in
  let shown := {| obj := {["server" := Fake.view "bad"]}; serializers := [] |} in
  (∃ w', show svc req shown "bad" (Fake.world_of ())
           = (Raise (OtherError "DBError" "connection lost"), w')
         ∧ calls w' = [CallGetInstanceBdms Fake.admin "bad"])
  ∧ (∃ w', detail svc req Faulty.three (Fake.world_of ())
             = (Raise (OtherError "DBError" "connection lost"), w')
           ∧ calls w' = [CallGetInstanceBdms Fake.admin Fake.SERVER;
                         CallGetInstanceBdms Fake.admin "bad"]).
Proof.
  intros svc req shown.
  destruct (hooks_let_backend_failures_through svc req
              (λ v, Fake.table (get_db_instance req v)) shown Faulty.three "bad"
              [Fake.view Fake.SERVER] [Fake.view "fake-server-3"]
              {["id" := VStr "bad"; "name" := VStr "server"]} (VStr "bad")
              (OtherError "DBError" "connection lost") (Fake.world_of ()))
    as [(w1 & Hshow & Hcalls1) (w2 & Hdetail & Hcalls2)].
  - reflexivity.
  - reflexivity.
  - reflexivity.
  - repeat constructor.
    eexists _, (VStr Fake.SERVER). split_and!; [reflexivity..|].
    intros s. eexists. reflexivity.
  - reflexivity.
  - intros s. eexists. reflexivity.
  - split.
    + exists w1. split; [exact Hshow|]. rewrite Hcalls1. reflexivity.
    + exists w2. split; [exact Hdetail|]. rewrite Hcalls2. reflexivity.
Defined.

Lemma detail_loop_missing_id {Inst Vol S : Type} (svc : @Services Inst Vol S)
    (req : request) (bdms_of : value → list bdm)
    (pre post : list value) (d : gmap string value) :
  Forall (known_server svc req bdms_of) pre →
  d !! "id" = None →
  ∀ w, ∃ w',
    detail_loop svc req (environ_context req) (pre ++ VDict d :: post) w
      = (Raise (KeyError "id"), w')
    ∧ calls w' = calls w ++ (fetch_of req <$> pre)
    ∧ log w' = log w.
Proof.
  intros Hpre Hid.
  induction Hpre as [|server pre (d0 & sid0 & -> & Hid0 & Hbdms) _ IH]; intros w.
  - exists w. simpl. unfold mbind at 1, M_bind, lift. rewrite Hid.
    split_and!; [done| |done]. by rewrite app_nil_r.
  - destruct (Hbdms (backend w)) as [s' Hs'].
    simpl. unfold mbind at 1, M_bind, lift. rewrite Hid0.
    unfold mbind at 1, M_bind.
    rewrite (extend_server_run _ _ _ _ _ _ _ Hs').
    match goal with |- context [mbind _ _ ?w1] =>
      destruct (IH w1) as (w' & Hrun & Hcalls & Hlog) end.
    unfold mbind at 1, M_bind. rewrite Hrun.
    exists w'. split_and!; [reflexivity| |done].
    rewrite Hcalls. simpl. rewrite <-app_assoc. simpl.
    by rewrite (fetch_of_view req d0 sid0 Hid0).
Qed.

(** X4.  The hooks trust the core API for the shape of the response.  For
    an authorized caller, a response without the [server] (or [servers])
    entry makes the hook raise [KeyError] for that key, and a server view
    without [id] makes it raise [KeyError] for [id], before any call to the
    backend for that view: [show], and [detail] when the view is the first,
    leave the world as it was; [detail] at a later view has read the
    mappings of the servers before it, and of no other. *)
Theorem hooks_raise_key_error {Inst Vol S : Type}
    (svc : @Services Inst Vol S) (req : request) (resp_obj : response_object)
    (id : string) (w : world) :
  authorize (environ_context req) = true →
  (obj resp_obj !! "server" = None →
   show svc req resp_obj id w = (Raise (KeyError "server"), w))
  ∧ (∀ d, obj resp_obj !! "server" = Some (VDict d) → d !! "id" = None →
          show svc req resp_obj id w = (Raise (KeyError "id"), w))
  ∧ (obj resp_obj !! "servers" = None →
     detail svc req resp_obj w = (Raise (KeyError "servers"), w))
  ∧ (∀ d rest, obj resp_obj !! "servers" = Some (VList (VDict d :: rest)) →
               d !! "id" = None →
               detail svc req resp_obj w = (Raise (KeyError "id"), w))
  ∧ (∀ bdms_of pre d post,
       obj resp_obj !! "servers" = Some (VList (pre ++ VDict d :: post)) →
       Forall (known_server svc req bdms_of) pre →
       d !! "id" = None →
       ∃ w', detail svc req resp_obj w = (Raise (KeyError "id"), w')
             ∧ calls w' = calls w ++ (fetch_of req <$> pre)
             ∧ log w' = log w).
Proof.
  intros Hauth. split_and!.
  - unfold show. rewrite Hauth.
    unfold resp_attach, py_getitem; simpl. unfold mbind, M_bind, lift.
    by intros ->.
  - unfold show. rewrite Hauth.
    unfold resp_attach, py_getitem; simpl. unfold mbind, M_bind, lift.
    intros d -> Hid. by rewrite Hid.
  - unfold detail. rewrite Hauth.
    unfold resp_attach, py_getitem; simpl. unfold mbind, M_bind, lift.
    by intros ->.
  - unfold detail. rewrite Hauth.
    unfold resp_attach, py_getitem; simpl. unfold mbind, M_bind, lift.
    intros d rest -> Hid. simpl. unfold mbind, M_bind, lift. simpl.
    by rewrite Hid.
  - intros bdms_of pre d post Hservers Hpre Hid.
    destruct (detail_loop_missing_id svc req bdms_of pre post d Hpre Hid w)
      as (w' & Hrun & Hrest).
    exists w'. split; [|done].
    unfold detail. rewrite Hauth.
    unfold resp_attach, py_getitem; simpl. unfold mbind at 1 2, M_bind, lift.
    rewrite Hservers. simpl. unfold mbind, M_bind. by rewrite Hrun.
Qed.

Lemma hooks_raise_key_error_witness :
  let svc := Fake.static_services Fake.table in
  let req := Fake.req_of Fake.admin in
  let no_id := {| obj := {["server" := VDict {["name" := VStr "server"]};
                           "servers" := VList [VDict {["name" := VStr "server"]}]]};
                  serializers := [] |} in
  show svc req Fake.listed Fake.SERVER (Fake.world_of ())
    = (Raise (KeyError "server"), Fake.world_of ())
  ∧ show svc req no_id Fake.SERVER (Fake.world_of ())
    = (Raise (KeyError "id"), Fake.world_of ())
  ∧ detail svc req Fake.shown (Fake.world_of ())
    = (Raise (KeyError "servers"), Fake.world_of ())
  ∧ detail svc req no_id (Fake.world_of ())
    = (Raise (KeyError "id"), Fake.world_of ())
  ∧ (∃ w', detail svc req Faulty.second_without_id (Fake.world_of ())
             = (Raise (KeyError "id"), w')
           ∧ calls w' = [CallGetInstanceBdms Fake.admin Fake.SERVER]
           ∧ log w' = []).
Proof.
  intros svc req no_id.
  pose proof (λ resp, hooks_raise_key_error svc req resp Fake.SERVER
                        (Fake.world_of ()) eq_refl) as H.
  split_and!.
  - by apply (H Fake.listed).
  - by eapply (H no_id).
  - by apply (H Fake.shown).
  - by eapply (H no_id).
  - destruct (H Faulty.second_without_id) as (_ & _ & _ & _ & Hlater).
    destruct (Hlater (λ v, Fake.table (get_db_instance req v))
                [Fake.view Fake.SERVER] {["name" := VStr "server"]}
                [Fake.view "fake-server-3"]) as (w' & Hrun & Hcalls & Hlog).
    + reflexivity.
    + repeat constructor.
      eexists _, (VStr Fake.SERVER). split_and!; [reflexivity..|].
      intros s. eexists. reflexivity.
    + reflexivity.
    + exists w'. split_and!; [exact Hrun | by rewrite Hcalls | exact Hlog].
Defined.

(** *** Detach: the scan of the mappings *)

Lemma detach_loop_skip {Inst Vol S : Type} (svc : @Services Inst Vol S)
    (context : RequestContext) (id : string) (instance : Inst) (volume : Vol)
    (requested : value) (pre rest : list bdm) (w : world) :
  Forall (λ b, ¬ same_volume b requested) pre →
  detach_loop svc context id instance volume requested (pre ++ rest) w
  = detach_loop svc context id instance volume requested rest w.
Proof.
  induction 1 as [|b pre Hb _ IH]; [done|].
  simpl. apply volume_id_differs_true in Hb. by rewrite Hb.
Qed.

(** X6.  The first mapping of the requested volume decides a successful
    [detach]: when [detach_volume] succeeds for it, the answer is 202
    without a body and the scan stops there.  [detach_volume] is called
    once, whatever mappings come after, other mappings of the same volume
    included. *)
Theorem detach_first_match_wins {Inst Vol S : Type}
    (svc : @Services Inst Vol S) (req : request) (id : string)
    (body detach_obj : gmap string value) (requested : value) (w : world)
    (instance : Inst) (volume : Vol) (pre post : list bdm) (b : bdm)
    (s' s'' : S) :
  body !! "detach" = Some (VDict detach_obj) →
  detach_obj !! "volume_id" = Some requested →
  lookups_return svc (environ_context req) id requested (backend w)
    instance volume (pre ++ b :: post) s' →
  Forall (λ b, ¬ same_volume b requested) pre →
  same_volume b requested →
  compute_api_detach_volume svc (environ_context req) instance volume s'
    = (Return (), s'') →
  let scanned := after_lookups svc (environ_context req) id requested instance w s' in
  detach svc req id (VDict body) w
    = (Return {| status := 202; resp_body := None |},
       {| backend := s'';
          calls := calls scanned
                   ++ [CallDetachVolume (environ_context req) instance volume];
          log := log scanned |}).
Proof.
  intros Hbody Hvol Hlook Hpre Hb Hdetach scanned.
  rewrite (detach_run_to_scan svc req id body detach_obj requested w
             instance volume (pre ++ b :: post) s'); [|done..|by destruct pre].
  unfold wsgi_response, mbind, M_bind, mret, M_ret.
  rewrite detach_loop_skip by done. simpl.
  apply volume_id_differs_false in Hb. rewrite Hb.
  unfold try_except, invoke. simpl. by rewrite Hdetach.
Qed.

Lemma detach_first_match_wins_witness :
  let result := detach Fake.services (Fake.req_of Fake.admin) Fake.SERVER
                  (Fake.detach_body (VStr Fake.UUID1))
                  (Fake.world_of (Faulty.crowded [])) in
  result.1 = Return {| status := 202; resp_body := None |}
  ∧ detach_volume_calls result.2 = 1.
Proof.
  intros result. unfold result, Fake.detach_body.
  rewrite (detach_first_match_wins Fake.services (Fake.req_of Fake.admin)
             Fake.SERVER
             {["detach" := VDict {["volume_id" := VStr Fake.UUID1]}]}
             {["volume_id" := VStr Fake.UUID1]} (VStr Fake.UUID1)
             (Fake.world_of (Faulty.crowded [])) Fake.SERVER Fake.UUID1
             [Fake.row Fake.UUID2]
             [Fake.row "not-a-uuid"; Fake.row Fake.UUID1] (Fake.row Fake.UUID1)
             (Faulty.crowded [])
             (Fake.detach_volume Fake.admin Fake.SERVER Fake.UUID1
                (Faulty.crowded [])).2).
  - split; reflexivity.
  - reflexivity.
  - reflexivity.
  - exists (Faulty.crowded []), (Faulty.crowded []). repeat split.
  - apply Forall_cons. split; [intros [=] | constructor].
  - reflexivity.
  - reflexivity.
Defined.

(** X7.  A failure of [detach_volume] other than "already unattached"
    ends the scan at the first mapping of the requested volume: an invalid
    volume becomes BadRequest with the message of the backend, an invalid
    instance state becomes Conflict with a message for [detach_volume], and
    any other exception leaves [detach] as it is.  The later mappings are
    not tried: [detach_volume] was called once. *)
Theorem detach_failure_stops_scan {Inst Vol S : Type}
    (svc : @Services Inst Vol S) (req : request) (id : string)
    (body detach_obj : gmap string value) (requested : value) (w : world)
    (instance : Inst) (volume : Vol) (pre post : list bdm) (b : bdm)
    (e e' : exn) (s' s'' : S) :
  body !! "detach" = Some (VDict detach_obj) →
  detach_obj !! "volume_id" = Some requested →
  lookups_return svc (environ_context req) id requested (backend w)
    instance volume (pre ++ b :: post) s' →
  Forall (λ b, ¬ same_volume b requested) pre →
  same_volume b requested →
  compute_api_detach_volume svc (environ_context req) instance volume s'
    = (Raise e, s'') →
  detach_failure e e' →
  let scanned := after_lookups svc (environ_context req) id requested instance w s' in
  detach svc req id (VDict body) w
    = (Raise e',
       {| backend := s'';
          calls := calls scanned
                   ++ [CallDetachVolume (environ_context req) instance volume];
          log := log scanned |}).
Proof.
  intros Hbody Hvol Hlook Hpre Hb Hdetach Hfail scanned.
  rewrite (detach_run_to_scan svc req id body detach_obj requested w
             instance volume (pre ++ b :: post) s'); [|done..|by destruct pre].
  unfold wsgi_response, mbind, M_bind, mret, M_ret.
  rewrite detach_loop_skip by done. simpl.
  apply volume_id_differs_false in Hb. rewrite Hb.
  unfold try_except, invoke. simpl. rewrite Hdetach.
  destruct Hfail as [msg|attr state|e0 He0]; [done..|].
  by destruct e0.
Qed.

Lemma detach_failure_stops_scan_witness :
  let run answer :=
    detach Fake.services (Fake.req_of Fake.admin) Fake.SERVER
      (Fake.detach_body (VStr Fake.UUID1))
      (Fake.world_of (Faulty.crowded [Raise answer])) in
  (run (InvalidVolume "volume is busy")).1
    = Raise (HTTPBadRequest "volume is busy")
  ∧ detach_volume_calls (run (InvalidVolume "volume is busy")).2 = 1
  ∧ (run (OtherError "RPCTimeout" "no reply")).1
    = Raise (OtherError "RPCTimeout" "no reply").
Proof.
  intros run.
  assert (Hpre : Forall (λ b, ¬ same_volume b (VStr Fake.UUID1))
                   [Fake.row Fake.UUID2]).
  { apply Forall_cons. split; [intros [=] | constructor]. }
  assert (Hlook : ∀ e,
    lookups_return Fake.services Fake.admin Fake.SERVER (VStr Fake.UUID1)
      (Faulty.crowded [Raise e]) Fake.SERVER Fake.UUID1
      ([Fake.row Fake.UUID2]
       ++ Fake.row Fake.UUID1 :: [Fake.row "not-a-uuid"; Fake.row Fake.UUID1])
      (Faulty.crowded [Raise e])).
  { intros e. exists (Faulty.crowded [Raise e]), (Faulty.crowded [Raise e]).
    repeat split. }
  pose proof (λ e e' Hfail,
    detach_failure_stops_scan Fake.services (Fake.req_of Fake.admin)
      Fake.SERVER
      {["detach" := VDict {["volume_id" := VStr Fake.UUID1]}]}
      {["volume_id" := VStr Fake.UUID1]} (VStr Fake.UUID1)
      (Fake.world_of (Faulty.crowded [Raise e])) Fake.SERVER Fake.UUID1
      [Fake.row Fake.UUID2]
      [Fake.row "not-a-uuid"; Fake.row Fake.UUID1] (Fake.row Fake.UUID1)
      e e' (Faulty.crowded [Raise e]) (Faulty.crowded [])
      eq_refl eq_refl (Hlook e) Hpre eq_refl eq_refl Hfail) as H.
  unfold run, Fake.detach_body. split_and!.
  - by rewrite (H (InvalidVolume "volume is busy") (HTTPBadRequest "volume is busy")
                  (detach_invalid_volume _)).
  - by rewrite (H (InvalidVolume "volume is busy") (HTTPBadRequest "volume is busy")
                  (detach_invalid_volume _)).
  - by rewrite (H (OtherError "RPCTimeout" "no reply") _
                  (detach_uncaught (OtherError "RPCTimeout" "no reply") I)).
Defined.

(** X8.  The look-ups of [detach] each have their own [except] clause.  A
    missing instance becomes NotFound and the volume is not looked up; a
    missing volume becomes NotFound and the mappings are not read.  Any
    other exception of a look-up, and any exception of the reading of the
    mappings, leaves [detach] as it is; so does [VolumeNotFound] raised by
    the look-up of the instance.  In no case is [detach_volume] called. *)
Theorem detach_lookup_failures {Inst Vol S : Type}
    (svc : @Services Inst Vol S) (req : request) (id : string)
    (body detach_obj : gmap string value) (requested : value) (w : world) :
  body !! "detach" = Some (VDict detach_obj) →
  detach_obj !! "volume_id" = Some requested →
  let context := environ_context req in
  let audit := LogAudit ("Detach volume " +:+ py_format svc requested
                         +:+ " from instance " +:+ id) in
  (∀ e s1,
     compute_api_get svc context id (backend w) = (Raise e, s1) →
     detach svc req id (VDict body) w
       = (Raise match e with
                | InstanceNotFound msg => HTTPNotFound msg
                | _ => e
                end,
          {| backend := s1;
             calls := calls w ++ [CallComputeGet context id];
             log := log w ++ [audit] |}))
  ∧ (∀ instance e s1 s2,
       compute_api_get svc context id (backend w) = (Return instance, s1) →
       volume_api_get svc context requested s1 = (Raise e, s2) →
       detach svc req id (VDict body) w
         = (Raise match e with
                  | VolumeNotFound msg => HTTPNotFound msg
                  | _ => e
                  end,
            {| backend := s2;
               calls := calls w ++ [CallComputeGet context id;
                                    CallVolumeGet context requested];
               log := log w ++ [audit] |}))
  ∧ (∀ instance volume e s1 s2 s3,
       compute_api_get svc context id (backend w) = (Return instance, s1) →
       volume_api_get svc context requested s1 = (Return volume, s2) →
       compute_api_get_instance_bdms svc context instance s2 = (Raise e, s3) →
       detach svc req id (VDict body) w
         = (Raise e,
            {| backend := s3;
               calls := calls w ++ [CallComputeGet context id;
                                    CallVolumeGet context requested;
                                    CallGetInstanceBdms context instance];
               log := log w ++ [audit] |})).
Proof.
  intros Hbody Hvol context audit. split_and!.
  - intros e s1 Hget. unfold detach, py_getitem. unfold_monad.
    rewrite Hbody, Hvol. simpl. fold context. rewrite Hget. by destruct e.
  - intros instance e s1 s2 Hget Hvolget. unfold detach, py_getitem.
    unfold_monad. rewrite Hbody, Hvol. simpl. fold context.
    rewrite Hget. simpl. rewrite Hvolget.
    destruct e; simpl; by rewrite <-?app_assoc.
  - intros instance volume e s1 s2 s3 Hget Hvolget Hbdms.
    unfold detach, py_getitem. unfold_monad. rewrite Hbody, Hvol. simpl.
    fold context. rewrite Hget. simpl. rewrite Hvolget. simpl. rewrite Hbdms.
    simpl. by rewrite <-!app_assoc.
Qed.

Lemma detach_lookup_failures_witness :
  let req := Fake.req_of Fake.admin in
  (detach Fake.services req "no-such-server"
     (Fake.detach_body (VStr Fake.UUID1)) (Fake.world_of Fake.state0)).1
    = Raise (HTTPNotFound "Instance no-such-server could not be found.")
  ∧ calls (detach Fake.services req "no-such-server"
             (Fake.detach_body (VStr Fake.UUID1)) (Fake.world_of Fake.state0)).2
    = [CallComputeGet Fake.admin "no-such-server"]
  ∧ (detach Fake.services req Fake.SERVER
       (Fake.detach_body (VStr "no-such-volume")) (Fake.world_of Fake.state0)).1
    = Raise (HTTPNotFound "Volume no-such-volume could not be found.").
Proof.
  intros req.
  pose proof (λ id v,
    detach_lookup_failures Fake.services req id
      {["detach" := VDict {["volume_id" := VStr v]}]}
      {["volume_id" := VStr v]} (VStr v) (Fake.world_of Fake.state0)
      eq_refl eq_refl) as H.
  unfold Fake.detach_body. split_and!.
  - destruct (H "no-such-server" Fake.UUID1) as (Hget & _ & _).
    by rewrite (Hget (InstanceNotFound "Instance no-such-server could not be found.")
                  Fake.state0 eq_refl).
  - destruct (H "no-such-server" Fake.UUID1) as (Hget & _ & _).
    by rewrite (Hget (InstanceNotFound "Instance no-such-server could not be found.")
                  Fake.state0 eq_refl).
  - destruct (H Fake.SERVER "no-such-volume") as (_ & Hvolget & _).
    by rewrite (Hvolget Fake.SERVER
                  (VolumeNotFound "Volume no-such-volume could not be found.")
                  Fake.state0 Fake.state0 eq_refl eq_refl).
Defined.

Lemma detach_loop_ignores_uuid_format {Inst Vol S : Type}
    (svc : @Services Inst Vol S) (f : value → bool) (context : RequestContext)
    (id : string) (instance : Inst) (volume : Vol) (requested : value)
    (bdms : list bdm) :
  ∀ w, detach_loop (with_is_uuid_like f svc) context id instance volume
         requested bdms w
       = detach_loop svc context id instance volume requested bdms w.
Proof.
  induction bdms as [|b bdms IH]; intros w; [done|].
  simpl. destruct (volume_id_differs b requested); [apply IH|].
  unfold try_except, invoke. simpl.
  destruct (compute_api_detach_volume svc context instance volume (backend w))
    as [[[]|e] s']; [done|].
  destruct e; first [apply IH | done].
Qed.

(** X9.  [detach] never checks the format of the volume id: its result is
    the same whatever [is_uuid_like] answers, so a volume id that [attach]
    would refuse is looked up and scanned for like any other. *)
Theorem detach_ignores_uuid_format {Inst Vol S : Type}
    (svc : @Services Inst Vol S) (f : value → bool) (req : request)
    (id : string) (body : value) (w : world) :
  detach (with_is_uuid_like f svc) req id body w = detach svc req id body w.
Proof.
  unfold detach. unfold_monad. simpl.
  destruct (py_getitem body "detach") as [detach_obj|e]; [|done].
  destruct (py_getitem detach_obj "volume_id") as [requested|e]; [|done].
  destruct (compute_api_get svc (environ_context req) id (backend w))
    as [[instance|e] s1]; [|done].
  simpl.
  destruct (volume_api_get svc (environ_context req) requested s1)
    as [[volume|e] s2]; [|done].
  simpl.
  destruct (compute_api_get_instance_bdms svc (environ_context req) instance s2)
    as [[bdms|e] s3]; [|done].
  simpl. destruct bdms as [|b bdms]; [done|].
  by rewrite detach_loop_ignores_uuid_format.
Qed.

(** The volume id that [attach] refuses is detached by [detach]. *)
Example detach_accepts_what_attach_refuses :
  let attached :=
    {| Fake.servers := [Fake.SERVER]; Fake.volumes := ["not-a-uuid"];
       Fake.bdm_rows := [Fake.row "not-a-uuid"];
       Fake.attach_answer := Return (); Fake.detach_answers := [] |} in
  (attach Fake.services (Fake.req_of Fake.admin) Fake.SERVER
     (Fake.attach_body (VStr "not-a-uuid")) (Fake.world_of attached)).1
    = Raise (HTTPBadRequest
               "Bad volumeId format: volumeId is not in proper format (not-a-uuid)")
  ∧ (detach Fake.services (Fake.req_of Fake.admin) Fake.SERVER
       (Fake.detach_body (VStr "not-a-uuid")) (Fake.world_of attached)).1
    = Return {| status := 202; resp_body := None |}.
Proof. vm_compute. split; reflexivity. Qed.

Lemma detach_volume_calls_add {Inst Vol S : Type} (w : @world Inst Vol S)
    (s' : S) (c : call) (l : list log_entry) :
  detach_volume_calls {| backend := s'; calls := calls w ++ [c]; log := l |}
  = detach_volume_calls w + (if is_detach_call c then 1 else 0).
Proof.
  unfold detach_volume_calls. simpl. rewrite filter_app, length_app.
  f_equal. rewrite filter_cons. destruct (is_detach_call c); by case_decide.
Qed.

Lemma matching_cons (requested : value) (b : bdm) (bdms : list bdm) :
  matching requested (b :: bdms)
  = if volume_id_differs b requested then matching requested bdms
    else b :: matching requested bdms.
Proof.
  unfold matching. rewrite filter_cons.
  destruct (volume_id_differs b requested) eqn:Hb.
  - apply volume_id_differs_true in Hb. by rewrite decide_False.
  - apply volume_id_differs_false in Hb. by rewrite decide_True.
Qed.

Lemma detach_loop_calls_bounded {Inst Vol S : Type}
    (svc : @Services Inst Vol S) (context : RequestContext) (id : string)
    (instance : Inst) (volume : Vol) (requested : value) (bdms : list bdm) :
  ∀ w,
    detach_volume_calls
      (detach_loop svc context id instance volume requested bdms w).2
    ≤ detach_volume_calls w + length (matching requested bdms).
Proof.
  induction bdms as [|b bdms IH]; intros w; [simpl; lia|].
  rewrite matching_cons. simpl.
  destruct (volume_id_differs b requested); [apply IH|].
  unfold try_except, invoke. simpl.
  destruct (compute_api_detach_volume svc context instance volume (backend w))
    as [[[]|e] s'].
  - simpl. rewrite detach_volume_calls_add. simpl. lia.
  - assert (Hstop : detach_volume_calls
              {| backend := s';
                 calls := calls w ++ [CallDetachVolume context instance volume];
                 log := log w |}
            ≤ detach_volume_calls w + (1 + length (matching requested bdms))).
    { rewrite detach_volume_calls_add. simpl. lia. }
    destruct e; try exact Hstop.
    etrans; [apply IH|]. rewrite detach_volume_calls_add. simpl. lia.
Qed.

(** X10.  [detach] calls [detach_volume] at most once for each mapping of
    the requested volume, whatever the backend answers: the number of calls
    it adds to the trace is at most the number of such mappings, and it is
    zero when the instance has mappings of other volumes only. *)
Theorem detach_calls_bounded_by_matches {Inst Vol S : Type}
    (svc : @Services Inst Vol S) (req : request) (id : string)
    (body detach_obj : gmap string value) (requested : value) (w : world)
    (instance : Inst) (volume : Vol) (bdms : list bdm) (s' : S) :
  body !! "detach" = Some (VDict detach_obj) →
  detach_obj !! "volume_id" = Some requested →
  lookups_return svc (environ_context req) id requested (backend w)
    instance volume bdms s' →
  detach_volume_calls (detach svc req id (VDict body) w).2
  ≤ detach_volume_calls w + length (matching requested bdms).
Proof.
  intros Hbody Hvol Hlook. destruct (decide (bdms = [])) as [->|Hne].
  - rewrite (detach_no_mappings_run svc req id body detach_obj requested w
               instance volume s') by done.
    unfold detach_volume_calls, after_lookups. simpl.
    rewrite filter_app. simpl. rewrite length_app. simpl. lia.
  - rewrite (detach_run_to_scan svc req id body detach_obj requested w
               instance volume bdms s') by done.
    unfold wsgi_response, mbind, M_bind, mret, M_ret.
    pose proof (detach_loop_calls_bounded svc (environ_context req) id instance
                  volume requested bdms
                  (after_lookups svc (environ_context req) id requested
                     instance w s')) as Hloop.
    assert (Hscan : detach_volume_calls
                      (after_lookups svc (environ_context req) id requested
                         instance w s') = detach_volume_calls w).
    { unfold detach_volume_calls, after_lookups. simpl.
      rewrite filter_app. simpl. rewrite length_app. simpl. lia. }
    rewrite Hscan in Hloop.
    by destruct (detach_loop _ _ _ _ _ _ _ _) as [[[]|e] w'].
Qed.

Lemma detach_calls_bounded_by_matches_witness :
  let unattached := Raise (VolumeUnattached "already detached") in
  detach_volume_calls
    (detach Fake.services (Fake.req_of Fake.admin) Fake.SERVER
       (Fake.detach_body (VStr Fake.UUID1))
       (Fake.world_of (Faulty.crowded [unattached; unattached; unattached]))).2
  ≤ 2.
Proof.
  intros unattached.
  apply (detach_calls_bounded_by_matches Fake.services (Fake.req_of Fake.admin)
           Fake.SERVER
           {["detach" := VDict {["volume_id" := VStr Fake.UUID1]}]}
           {["volume_id" := VStr Fake.UUID1]} (VStr Fake.UUID1)
           (Fake.world_of (Faulty.crowded [unattached; unattached; unattached]))
           Fake.SERVER Fake.UUID1
           [Fake.row Fake.UUID2; Fake.row Fake.UUID1;
            Fake.row "not-a-uuid"; Fake.row Fake.UUID1]
           (Faulty.crowded [unattached; unattached; unattached])).
  - reflexivity.
  - reflexivity.
  - eexists _, _. repeat split.
Defined.

(** X11.  The mappings of other volumes play no part in the scan of
    [detach]: on any list of mappings the loop does what it does on the
    mappings of the requested volume alone, in every world. *)
Theorem detach_scan_skips_other_volumes {Inst Vol S : Type}
    (svc : @Services Inst Vol S) (context : RequestContext) (id : string)
    (instance : Inst) (volume : Vol) (requested : value) (bdms : list bdm)
    (w : world) :
  detach_loop svc context id instance volume requested bdms w
  = detach_loop svc context id instance volume requested
      (matching requested bdms) w.
Proof.
  revert w. induction bdms as [|b bdms IH]; intros w; [done|].
  rewrite matching_cons. simpl.
  destruct (volume_id_differs b requested) eqn:Hb; [apply IH|].
  simpl. rewrite Hb. unfold try_except, invoke. simpl.
  destruct (compute_api_detach_volume svc context instance volume (backend w))
    as [[[]|e] s']; [done|].
  destruct e; first [apply IH | done].
Qed.

Lemma detach_loop_tries_every_match {Inst Vol S : Type}
    (svc : @Services Inst Vol S) (context : RequestContext) (id : string)
    (instance : Inst) (volume : Vol) (requested : value) (bdms : list bdm) :
  (∀ s, ∃ msg s',
     compute_api_detach_volume svc context instance volume s
       = (Raise (VolumeUnattached msg), s')) →
  ∀ w,
    detach_volume_calls
      (detach_loop svc context id instance volume requested bdms w).2
    = detach_volume_calls w + length (matching requested bdms).
Proof.
  intros Hun. induction bdms as [|b bdms IH]; intros w; [simpl; lia|].
  rewrite matching_cons. simpl.
  destruct (volume_id_differs b requested); [apply IH|].
  unfold try_except, invoke.
  destruct (Hun (backend w)) as (msg & s' & ->).
  rewrite IH, detach_volume_calls_add. simpl. lia.
Qed.

(** X12.  When the backend answers every [detach_volume] with "already
    unattached", [detach] tries each mapping of the requested volume, once
    each, before it gives up: the trace grows by as many [detach_volume]
    calls as the instance has such mappings. *)
Theorem detach_tries_every_match {Inst Vol S : Type}
    (svc : @Services Inst Vol S) (req : request) (id : string)
    (body detach_obj : gmap string value) (requested : value) (w : world)
    (instance : Inst) (volume : Vol) (bdms : list bdm) (s' : S) :
  body !! "detach" = Some (VDict detach_obj) →
  detach_obj !! "volume_id" = Some requested →
  lookups_return svc (environ_context req) id requested (backend w)
    instance volume bdms s' →
  (∀ s, ∃ msg s'',
     compute_api_detach_volume svc (environ_context req) instance volume s
       = (Raise (VolumeUnattached msg), s'')) →
  detach_volume_calls (detach svc req id (VDict body) w).2
  = detach_volume_calls w + length (matching requested bdms).
Proof.
  intros Hbody Hvol Hlook Hun.
  assert (Hscan : detach_volume_calls
                    (after_lookups svc (environ_context req) id requested
                       instance w s') = detach_volume_calls w).
  { unfold detach_volume_calls, after_lookups. simpl.
    rewrite filter_app. simpl. rewrite length_app. simpl. lia. }
  destruct (decide (bdms = [])) as [->|Hne].
  - rewrite (detach_no_mappings_run svc req id body detach_obj requested w
               instance volume s') by done.
    rewrite <-Hscan. unfold detach_volume_calls. simpl. lia.
  - rewrite (detach_run_to_scan svc req id body detach_obj requested w
               instance volume bdms s') by done.
    unfold wsgi_response, mbind, M_bind, mret, M_ret.
    pose proof (detach_loop_tries_every_match svc (environ_context req) id
                  instance volume requested bdms Hun
                  (after_lookups svc (environ_context req) id requested
                     instance w s')) as Hloop.
    rewrite Hscan in Hloop.
    by destruct (detach_loop _ _ _ _ _ _ _ _) as [[[]|e] w'].
Qed.

Lemma detach_tries_every_match_witness :
  let table := λ _ : string,
    [Fake.row Fake.UUID2; Fake.row Fake.UUID1;
     Fake.row "not-a-uuid"; Fake.row Fake.UUID1] in
  detach_volume_calls
    (detach (Faulty.stale table) (Fake.req_of Fake.admin) Fake.SERVER
       (Fake.detach_body (VStr Fake.UUID1)) (Fake.world_of ())).2
  = 2.
Proof.
  intros table.
  apply (detach_tries_every_match (Faulty.stale table) (Fake.req_of Fake.admin)
           Fake.SERVER
           {["detach" := VDict {["volume_id" := VStr Fake.UUID1]}]}
           {["volume_id" := VStr Fake.UUID1]} (VStr Fake.UUID1)
           (Fake.world_of ()) Fake.SERVER Fake.UUID1 (table Fake.SERVER) ()).
  - reflexivity.
  - reflexivity.
  - exists (), (). repeat split.
  - intros s. eexists _, _. reflexivity.
Defined.

(** *** Attach: what is not in the table *)

(** X13.  [attach] translates the five failures its [except] clauses name
    and no other: an exception of any other kind, raised by the look-up of
    the instance or by [attach_volume], leaves [attach] as it is.  When the
    look-up of the instance fails, [attach_volume] is not called. *)
Theorem attach_lets_other_exceptions_through {Inst Vol S : Type}
    (svc : @Services Inst Vol S) (req : request) (id : string)
    (body attach_obj : gmap string value) (volume_id : value) (w : world) :
  body !! "attach" = Some (VDict attach_obj) →
  attach_obj !! "volume_id" = Some volume_id →
  is_uuid_like svc volume_id = true →
  let context := environ_context req in
  let device := default VNone (attach_obj !! "device") in
  let audit := LogAudit ("Attach volume " +:+ py_format svc volume_id
                         +:+ " to instance " +:+ id
                         +:+ " at " +:+ py_format svc device) in
  (∀ e s1,
     compute_api_get svc context id (backend w) = (Raise e, s1) →
     uncaught_by_attach e →
     attach svc req id (VDict body) w
       = (Raise e, {| backend := s1;
                      calls := calls w ++ [CallComputeGet context id];
                      log := log w ++ [audit] |}))
  ∧ (∀ instance e s1 s2,
       compute_api_get svc context id (backend w) = (Return instance, s1) →
       compute_api_attach_volume svc context instance volume_id device s1
         = (Raise e, s2) →
       uncaught_by_attach e →
       attach svc req id (VDict body) w
         = (Raise e, {| backend := s2;
                        calls := calls w
                                 ++ [CallComputeGet context id;
                                     CallAttachVolume context instance
                                       volume_id device];
                        log := log w ++ [audit] |})).
Proof.
  intros Hbody Hvol Huuid context device audit. split.
  - intros e s1 Hget He.
    unfold attach, _validate_volume_id, is_valid_body, py_getitem, py_get.
    unfold_monad. rewrite Hbody, Hvol, Huuid. simpl.
    fold context device. rewrite Hget. by destruct e.
  - intros instance e s1 s2 Hget Hatt He.
    unfold attach, _validate_volume_id, is_valid_body, py_getitem, py_get.
    unfold_monad. rewrite Hbody, Hvol, Huuid. simpl.
    fold context device. rewrite Hget. simpl. rewrite Hatt.
    destruct e; try done; simpl; by rewrite <-!app_assoc.
Qed.

Lemma attach_lets_other_exceptions_through_witness :
  (attach (Faulty.services Fake.table "bad") (Fake.req_of Fake.admin)
     Fake.SERVER (Fake.attach_body (VStr Fake.UUID1)) (Fake.world_of ())).1
  = Raise (OtherError "RPCTimeout" "no reply").
Proof.
  destruct (attach_lets_other_exceptions_through
              (Faulty.services Fake.table "bad") (Fake.req_of Fake.admin)
              Fake.SERVER
              {["attach" := VDict {["volume_id" := VStr Fake.UUID1]}]}
              {["volume_id" := VStr Fake.UUID1]} (VStr Fake.UUID1)
              (Fake.world_of ())) as [_ Hatt]; [reflexivity..|].
  unfold Fake.attach_body.
  rewrite (Hatt Fake.SERVER (OtherError "RPCTimeout" "no reply") () ());
    reflexivity || exact I.
Defined.

(** X14.  Whatever the body and whatever the backend answers, [attach]
    calls the backend at most twice: not at all, or [compute_api.get] once,
    or [compute_api.get] and then [attach_volume] once.  It never looks the
    volume up in the volume service, never reads the mappings and never
    detaches. *)
Theorem attach_calls_get_then_attach_volume {Inst Vol S : Type}
    (svc : @Services Inst Vol S) (req : request) (id : string) (body : value)
    (w : world) :
  let context := environ_context req in
  let made := calls (attach svc req id body w).2 in
  made = calls w
  ∨ made = calls w ++ [CallComputeGet context id]
  ∨ ∃ instance volume_id device,
      made = calls w ++ [CallComputeGet context id;
                         CallAttachVolume context instance volume_id device].
Proof.
  intros context made. unfold made, attach, _validate_volume_id.
  unfold_monad. simpl.
  destruct (is_valid_body body "attach"); simpl; [|by left].
  destruct (py_getitem body "attach") as [attach_obj|e]; [|by left].
  destruct (py_getitem attach_obj "volume_id") as [volume_id|e]; [|by left].
  destruct (is_uuid_like svc volume_id); simpl; [|by left].
  fold context.
  destruct (compute_api_get svc context id (backend w)) as [[instance|e] s1].
  - right; right. simpl.
    match goal with |- context [compute_api_attach_volume svc _ _ _ ?d s1] =>
      exists instance, volume_id, d;
      destruct (compute_api_attach_volume svc context instance volume_id d s1)
        as [[[]|e] s2] end.
    + simpl. by rewrite <-app_assoc.
    + destruct e; simpl; by rewrite <-app_assoc.
  - right; left. by destruct e.
Qed.
